(** * SparkCare AI: the authorization and audit-trail pipeline

  A shallow embedding of the request gate of the SparkCare server:
  - the audit logger middleware: [redactSensitiveData], [createAuditEntry],
    [auditLogger], [auditCareEvent];
  - the auth middleware: [authenticateToken], [requirePermission],
    [requireResidentAccess];
  - the error handler middleware: [errorHandler];
  - [server/models/Staff.js]: [isAccountLocked], [hasPermission];
  - [server/routes/auth.js]: [generateTokens], the refresh route, the
    password change of the reset-password route;
  - the daily-logs routes: the [canEdit] check;
  - [server/config/logger.js]: what the middlewares get when they call
    [logger.info], [logger.warn] and [logger.error];
  - further on: [auditIncident], [auditMedication], [auditCarePlanChange],
    [requireAccessLevel], [optionalAuth], [incrementLoginAttempts],
    [resetLoginAttempts], the verify-token route and the edit checks of the
    daily-logs routes.

  JavaScript values are a tree type, the clock is an explicit argument
  (milliseconds since the epoch), the audit file is an explicit [World]
  threaded through every effectful function, and each middleware returns
  what it did with the request: a reply, a call of [next()], or an error
  that left it. *)

From Stdlib Require Import String Ascii List ZArith Bool Lia Arith DecimalString.
Import ListNotations.

Open Scope string_scope.
Open Scope list_scope.

(* ================================================================== *)
(** ** JavaScript values *)
(* ================================================================== *)

Module JS.

(** The JSON-shaped fragment of JavaScript values the pipeline handles.
    Numbers are integers; only their truthiness matters below.  An object
    is the list of its own enumerable properties in enumeration order. *)
#[warnings="-register-all"]
Inductive value : Type :=
| VUndefined
| VNull
| VBool (b : bool)
| VNum (n : Z)
| VStr (s : string)
| VObj (fields : list (string * value))
| VArr (items : list value).

(** [ToBoolean]: what [if (x)] and [!x] test. *)
Definition truthy (v : value) : bool :=
  match v with
  | VUndefined | VNull => false
  | VBool b => b
  | VNum n => negb (Z.eqb n 0)
  | VStr s => negb (String.eqb s "")
  | VObj _ | VArr _ => true
  end.

(** [typeof v === 'object'] (true of [null], objects and arrays). *)
Definition typeof_object (v : value) : bool :=
  match v with
  | VNull | VObj _ | VArr _ => true
  | _ => false
  end.

Definition is_null (v : value) : bool :=
  match v with VNull => true | _ => false end.

Definition is_undefined (v : value) : bool :=
  match v with VUndefined => true | _ => false end.

(** Property read [o[k]] on a property list: the first binding, or
    [undefined]. *)
Fixpoint get (o : list (string * value)) (k : string) : value :=
  match o with
  | [] => VUndefined
  | (k', v) :: o' => if String.eqb k' k then v else get o' k
  end.

(** Property write [o[k] = v]: an existing property keeps its place, a new
    one is added at the end. *)
Fixpoint set (o : list (string * value)) (k : string) (v : value)
  : list (string * value) :=
  match o with
  | [] => [(k, v)]
  | (k', v') :: o' =>
      if String.eqb k' k then (k', v) :: o' else (k', v') :: set o' k v
  end.

(** Property read on any value; only objects carry the keys used here. *)
Definition prop (v : value) (k : string) : value :=
  match v with
  | VObj o => get o k
  | _ => VUndefined
  end.

(** The decimal property name of an array index. *)
Definition index_key (i : nat) : string :=
  NilZero.string_of_uint (Nat.to_uint i).

Fixpoint indexed (i : nat) (items : list value) : list (string * value) :=
  match items with
  | [] => []
  | x :: items' => (index_key i, x) :: indexed (S i) items'
  end.

(** Object spread [{ ...data }] of an object or an array: the own
    enumerable properties; an array contributes its indices. *)
Definition spread (data : value) : list (string * value) :=
  match data with
  | VObj o => o
  | VArr items => indexed 0 items
  | _ => []
  end.

(** Nesting depth, the termination measure of recursive walks. *)
Fixpoint depth (v : value) : nat :=
  match v with
  | VObj o => S (fold_right (fun kv m => Nat.max (depth (snd kv)) m) 0 o)
  | VArr items => S (fold_right (fun x m => Nat.max (depth x) m) 0 items)
  | _ => 0
  end.

Definition depth_fields (o : list (string * value)) : nat :=
  fold_right (fun kv m => Nat.max (depth (snd kv)) m) 0 o.

End JS.
Import JS.

(* ================================================================== *)
(** ** auditLogger.js: redaction *)
(* ================================================================== *)

Module Redaction.

Definition sensitiveFields : list string :=
  [ "password"; "token"; "nhsNumber"; "nationalInsuranceNumber";
    "dateOfBirth"; "emergencyContact"; "nextOfKin"; "medicalHistory";
    "medications" ].

Definition REDACTED : value := VStr "[REDACTED]".

(** [sensitiveFields.forEach(field => { if (redacted[field])
    redacted[field] = '[REDACTED]' })]. *)
Definition mark_field (redacted : list (string * value)) (field : string)
  : list (string * value) :=
  if truthy (get redacted field) then set redacted field REDACTED
  else redacted.

Definition mark (redacted : list (string * value)) : list (string * value) :=
  fold_left mark_field sensitiveFields redacted.

(** [Object.keys(redacted).forEach(key => { if (typeof redacted[key] ===
    'object' && redacted[key] !== null) redacted[key] = recur(redacted[key])
    })], where [recur] may run out of fuel. *)
Fixpoint walk (recur : value -> option value) (redacted : list (string * value))
  : option (list (string * value)) :=
  match redacted with
  | [] => Some []
  | (key, v) :: rest =>
      match (if typeof_object v && negb (is_null v) then recur v else Some v),
            walk recur rest with
      | Some v', Some rest' => Some ((key, v') :: rest')
      | _, _ => None
      end
  end.

(** [redactSensitiveData]; [fuel] bounds the depth of the recursive
    descent, [None] means the bound was reached. *)
Fixpoint redact_fuel (fuel : nat) (data : value) : option value :=
  match fuel with
  | O => None
  | S fuel' =>
      if negb (truthy data) || negb (typeof_object data) then Some data
      else
        match walk (redact_fuel fuel') (mark (spread data)) with
        | Some redacted => Some (VObj redacted)
        | None => None
        end
  end.

(** The walk is over a finite tree, so the depth of the argument is always
    fuel enough (lemma [redact_fuel_enough] below). *)
Definition redactSensitiveData (data : value) : value :=
  match redact_fuel (S (depth data)) data with
  | Some v => v
  | None => data
  end.

End Redaction.
Import Redaction.

(* ================================================================== *)
(** ** Staff.js: the staff record and its methods *)
(* ================================================================== *)

Module StaffModel.

(** The [accessLevel] enum of the schema. *)
Inductive AccessLevel : Type := Carer | Senior | Admin.

Definition accessLevel_name (a : AccessLevel) : string :=
  match a with Carer => "Carer" | Senior => "Senior" | Admin => "Admin" end.

Record Facility : Type := mkFacility {
  facility_id : string;
  facility_name : string
}.

(** The paths of the staff document the gate reads.  Dates are milliseconds
    since the epoch; [facility] is the populated reference ([None] when the
    referenced document is gone).  The schema declares no [facilityId]:
    reading it from a staff document gives [undefined]. *)
Record Staff : Type := mkStaff {
  _id : string;
  email : string;
  role : string;
  accessLevel : AccessLevel;
  isActive : bool;
  accountLocked : bool;
  lockUntil : option Z;
  passwordChangedAt : option Z;
  createdAt : Z;
  assignedResidents : list string;
  facility : option Facility
}.

Definition staff_facilityId (u : Staff) : value := VUndefined.

(** The virtual [isAccountLocked]:
    [!!(this.accountLocked && this.lockUntil && this.lockUntil > Date.now())]. *)
Definition isAccountLocked (u : Staff) (now : Z) : bool :=
  accountLocked u &&
  match lockUntil u with
  | Some t => Z.ltb now t
  | None => false
  end.

(** [Array.prototype.includes] on strings. *)
Definition includes (l : list string) (s : string) : bool :=
  existsb (String.eqb s) l.

(** The table inside [hasPermission].  [accessLevel] ranges over the enum,
    so the [|| []] fallback of the source is never taken. *)
Definition permissions (a : AccessLevel) : list string :=
  match a with
  | Carer => ["view_residents"; "create_logs"; "view_care_plans"; "complete_tasks"]
  | Senior => ["view_residents"; "create_logs"; "view_care_plans"; "complete_tasks";
               "create_care_plans"; "view_reports"; "manage_tasks"]
  | Admin => ["*"]
  end.

Definition hasPermission (u : Staff) (permission : string) : bool :=
  let userPermissions := permissions (accessLevel u) in
  includes userPermissions "*" || includes userPermissions permission.

(** [user.passwordChangedAt = new Date()], as the reset-password route and
    the pre-save hook do when the password changes. *)
Definition changePassword (u : Staff) (now : Z) : Staff :=
  mkStaff (_id u) (email u) (role u) (accessLevel u) (isActive u)
          (accountLocked u) (lockUntil u) (Some now) (createdAt u)
          (assignedResidents u) (facility u).

End StaffModel.
Import StaffModel.

(* ================================================================== *)
(** ** Errors, the staff collection, the token library *)
(* ================================================================== *)

Module Runtime.

(** A thrown [Error]: the fields the handlers inspect. *)
Record js_error : Type := mkError {
  name : string;
  message : string;
  statusCode : option Z;
  code : option Z;
  errors : option (list string);
  keyValue : option (list string);
  stack : string
}.

Inductive completion (A : Type) : Type :=
| Return (a : A)
| Throw (e : js_error).
Arguments Return {A} a.
Arguments Throw {A} e.

Definition plainError (n m : string) : js_error :=
  mkError n m None None None None "".

(** The [AppError] subclasses of errorHandler.js. *)
Definition UnauthorizedError (m : string) : js_error :=
  mkError "UnauthorizedError" m (Some 401%Z) None None None "".
Definition ForbiddenError (m : string) : js_error :=
  mkError "ForbiddenError" m (Some 403%Z) None None None "".
Definition ValidationError (m : string) : js_error :=
  mkError "ValidationError" m (Some 400%Z) None None None "".
Definition NotFoundError (m : string) : js_error :=
  mkError "NotFoundError" m (Some 404%Z) None None None "".

(** The staff collection.  [online = false] makes every query reject. *)
Record Db : Type := mkDb {
  staff : list Staff;
  online : bool
}.

Definition lookup_staff (db : Db) (id : string) : option Staff :=
  find (fun u => String.eqb (_id u) id) (staff db).

(** [Staff.findById(id)]: Mongoose turns [findById(undefined)] into a query
    for [_id: null], which matches nothing; a value that is no id fails to
    cast. *)
Definition findById (db : Db) (id : value) : completion (option Staff) :=
  if negb (online db) then Throw (plainError "MongoNetworkError" "connection failed")
  else match id with
       | VStr s => Return (lookup_staff db s)
       | VUndefined | VNull => Return None
       | _ => Throw (plainError "CastError" "Cast to ObjectId failed")
       end.

(** Replace the stored document that has the id of [u]. *)
Definition save (db : Db) (u : Staff) : Db :=
  mkDb (map (fun u' => if String.eqb (_id u') (_id u) then u else u') (staff db))
       (online db).

End Runtime.
Import Runtime.

Module Jwt.

(** What [jwt.verify] returns: the signed payload with the [iat] and [exp]
    claims (seconds since the epoch) that [jwt.sign] added. *)
Record claims : Type := mkClaims {
  payload : list (string * value);
  iat : Z;
  exp : Z
}.

(** A token as it travels: text that is no well-formed JWT ([Raw], the empty
    string included), or the compact serialisation of [claims] with an HMAC
    under [key].  Signatures are symbolic: an HMAC verifies exactly under the
    key that made it. *)
Inductive wire : Type :=
| Raw (text : string)
| Jws (key : string) (c : claims).

Definition wire_truthy (t : wire) : bool :=
  match t with
  | Raw text => negb (String.eqb text "")
  | Jws _ _ => true
  end.

(** [Math.floor(ms / 1000)]. *)
Definition seconds (ms : Z) : Z := (ms / 1000)%Z.

(** [jwt.sign(payload, secret, { expiresIn })] with [expiresIn] in seconds.
    The payload goes through JSON, which drops [undefined] properties. *)
Definition sign (body : list (string * value)) (secret : string)
  (expiresIn : Z) (now : Z) : wire :=
  Jws secret
    (mkClaims (filter (fun kv => negb (is_undefined (snd kv))) body)
              (seconds now) (seconds now + expiresIn)%Z).

(** [jwt.verify(token, secret)]: malformed text and a bad signature throw
    [JsonWebTokenError]; a token whose [exp] is not after the clock throws
    [TokenExpiredError]. *)
Definition verify (token : wire) (secret : string) (now : Z) : completion claims :=
  match token with
  | Raw _ => Throw (plainError "JsonWebTokenError" "jwt malformed")
  | Jws key c =>
      if negb (String.eqb key secret)
      then Throw (plainError "JsonWebTokenError" "invalid signature")
      else if (exp c <=? seconds now)%Z
           then Throw (plainError "TokenExpiredError" "jwt expired")
           else Return c
  end.

(** [decoded.k] for a payload property. *)
Definition claim (c : claims) (k : string) : value := get (payload c) k.

End Jwt.
Import Jwt.

(* ================================================================== *)
(** ** Requests, the logger and the audit file *)
(* ================================================================== *)

Module Http.

(** [process.env]: lifetimes are in seconds, [None] when the variable is
    unset. *)
Record Env : Type := mkEnv {
  JWT_SECRET : string;
  JWT_EXPIRES_IN : option Z;
  JWT_REFRESH_EXPIRES_IN : option Z;
  NODE_ENV : string
}.

(** One reading of the clock: [Date.now()] and [new Date().toISOString()]. *)
Record Clock : Type := mkClock {
  now : Z;
  isoNow : string
}.

(** The [Authorization] header: ['Bearer ' + token], or text that does not
    start with ['Bearer ']. *)
Inductive auth_header : Type :=
| Bearer (token : wire)
| OtherScheme (text : string).

Record Request : Type := mkRequest {
  method : string;
  originalUrl : string;
  ip : string;
  userAgent : value;
  forwardedFor : value;
  authorization : option auth_header;
  cookieAccessToken : option wire;
  paramsResidentId : value;
  paramsId : value;
  body : value;
  sessionID : value;
  user : option Staff
}.

(** [req.user = user]. *)
Definition attach_user (req : Request) (u : Staff) : Request :=
  mkRequest (method req) (originalUrl req) (ip req) (userAgent req)
            (forwardedFor req) (authorization req) (cookieAccessToken req)
            (paramsResidentId req) (paramsId req) (body req) (sessionID req)
            (Some u).

(** What a request leaves behind: the lines of [logs/audit.log]. *)
Record World : Type := mkWorld {
  auditFile : list value
}.

(** Effectful code that may throw: a state-and-error monad over [World]. *)
Definition M (A : Type) : Type := World -> completion A * World.

Definition ret {A : Type} (a : A) : M A := fun w => (Return a, w).

Definition throw {A : Type} (e : js_error) : M A := fun w => (Throw e, w).

Definition bind {A B : Type} (m : M A) (k : A -> M B) : M B :=
  fun w =>
    match m w with
    | (Return a, w') => k a w'
    | (Throw e, w') => (Throw e, w')
    end.

(** [promise.catch(handler)] and [try { m } catch (e) { handler(e) }]. *)
Definition catch {A : Type} (m : M A) (handler : js_error -> M A) : M A :=
  fun w =>
    match m w with
    | (Return a, w') => (Return a, w')
    | (Throw e, w') => handler e w'
    end.

(** A promise that is started and not awaited, as in
    [fs.appendFile(...).catch(handler)] at the end of a statement: what the
    handler throws rejects that promise and does not reach the caller. *)
Definition detached (m : M unit) : M unit :=
  fun w => match m w with (_, w') => (Return tt, w') end.

Notation "x <- m ;; k" := (bind m (fun x => k))
  (at level 61, m at next level, right associativity).
Notation "m ;;; k" := (bind m (fun _ => k))
  (at level 61, right associativity).

(** What calling a property that is not there throws. *)
Definition not_a_function (callee : string) : js_error :=
  plainError "TypeError" (String.append callee " is not a function").

(** [logger.info], [logger.warn], [logger.error] ([lvl] is the method).
    config/logger.js exports an object [{ logger, auditLogger, ... }] of
    loggers and helpers, and the middleware modules bind that whole object
    with [const logger = require('../config/logger')].  It has no [info],
    [warn] or [error], so every such call throws a [TypeError], whatever is
    to be logged. *)
Definition logger (lvl msg : string) (m : value) : M unit :=
  throw (not_a_function (String.append "logger." lvl)).

(** The state of the disk under [logs/audit.log]: [Some err] makes
    [fs.appendFile] reject with [err]. *)
Definition Disk : Type := option string.

(** [fs.appendFile(auditLogFile, JSON.stringify(entry) + '\n')]. *)
Definition appendFile (disk : Disk) (entry : value) : M unit :=
  fun w =>
    match disk with
    | None => (Return tt, mkWorld (auditFile w ++ [entry]))
    | Some err => (Throw (plainError "Error" err), w)
    end.

(** The result of one middleware, called with Express's own [res]: it
    answered ([res.status(s).json(b)]) or called [next()]; or it did
    neither, because it threw ([Threw], a plain function) or because the
    promise it returned was rejected ([Rejected], an [async] function whose
    [catch] block threw in turn). *)
Inductive Outcome : Type :=
| Respond (req : Request) (status : Z) (reply : value)
| Next (req : Request)
| Threw (req : Request) (e : js_error)
| Rejected (req : Request) (e : js_error).

(** [a || b]. *)
Definition js_or (a b : value) : value := if truthy a then a else b.

Definition msg2 (e m : string) : value :=
  VObj [("error", VStr e); ("message", VStr m)].

End Http.
Import Http.

(* ================================================================== *)
(** ** routes/auth.js: issuing tokens *)
(* ================================================================== *)

Module AuthRoutes.

Definition accessTtl (env : Env) : Z :=
  match JWT_EXPIRES_IN env with Some s => s | None => (7 * 86400)%Z end.

Definition refreshTtl (env : Env) : Z :=
  match JWT_REFRESH_EXPIRES_IN env with Some s => s | None => (30 * 86400)%Z end.

Record TokenPair : Type := mkPair {
  accessToken : wire;
  refreshToken : wire
}.

(** [generateTokens(user)]. *)
Definition generateTokens (env : Env) (clock : Clock) (u : Staff) : TokenPair :=
  let body := [ ("id", VStr (_id u));
                ("email", VStr (email u));
                ("role", VStr (role u));
                ("facilityId", staff_facilityId u) ] in
  mkPair (sign body (JWT_SECRET env) (accessTtl env) (now clock))
         (sign [("id", VStr (_id u))] (JWT_SECRET env) (refreshTtl env) (now clock)).

(** The handler of [POST /api/auth/refresh]: [Return] is the token pair sent
    in the 200 reply, [Throw] is what reaches the error handler.  Everything
    thrown inside the [try] is replaced by the same [UnauthorizedError]. *)
Definition refresh (env : Env) (db : Db) (clock : Clock) (presented : option wire)
  : completion TokenPair :=
  match presented with
  | None => Throw (UnauthorizedError "Refresh token required")
  | Some token =>
      if negb (wire_truthy token)
      then Throw (UnauthorizedError "Refresh token required")
      else
        let attempt : completion TokenPair :=
          match verify token (JWT_SECRET env) (now clock) with
          | Throw e => Throw e
          | Return decoded =>
              match findById db (claim decoded "id") with
              | Throw e => Throw e
              | Return None => Throw (UnauthorizedError "User not found or inactive")
              | Return (Some u) =>
                  if negb (isActive u)
                  then Throw (UnauthorizedError "User not found or inactive")
                  else Return (generateTokens env clock u)
              end
          end in
        match attempt with
        | Return tokens => Return tokens
        | Throw _ => Throw (UnauthorizedError "Invalid refresh token")
        end
  end.

End AuthRoutes.
Import AuthRoutes.

(* ================================================================== *)
(** ** middleware/auth.js *)
(* ================================================================== *)

Module AuthMiddleware.

(** The token of a request: the bearer token of the header, else the
    [accessToken] cookie; [None] when [!token]. *)
Definition extractToken (req : Request) : option wire :=
  let fromHeader :=
    match authorization req with
    | Some (Bearer t) => if wire_truthy t then Some t else None
    | _ => None
    end in
  match fromHeader with
  | Some t => Some t
  | None =>
      match cookieAccessToken req with
      | Some t => if wire_truthy t then Some t else None
      | None => None
      end
  end.

Definition R_required : value :=
  msg2 "Authentication Required" "Access token is required".
Definition R_not_found : value :=
  msg2 "Authentication Failed" "User not found".
Definition R_disabled : value :=
  msg2 "Account Disabled"
       "Your account has been disabled. Please contact an administrator.".
Definition R_locked : value :=
  msg2 "Account Locked"
       "Your account has been temporarily locked due to multiple failed login attempts.".
Definition R_stale : value :=
  msg2 "Token Invalid" "Please log in again after password change".
Definition R_invalid : value :=
  msg2 "Invalid Token" "The provided token is invalid".
Definition R_expired : value :=
  msg2 "Token Expired" "Your session has expired. Please log in again.".
Definition R_auth_error : value :=
  msg2 "Authentication Error" "An error occurred during authentication".

(** The [catch] block of [authenticateToken]: what [logger.error] throws
    there leaves the [async] function, whose promise is rejected. *)
Definition auth_catch (req : Request) (e : js_error) (w : World) : Outcome * World :=
  if String.eqb (name e) "JsonWebTokenError" then (Respond req 401 R_invalid, w)
  else if String.eqb (name e) "TokenExpiredError" then (Respond req 401 R_expired, w)
  else
    match logger "error" "Authentication error:"
                 (VObj [("error", VStr (message e)); ("stack", VStr (stack e));
                        ("ip", VStr (ip req))]) w with
    | (Return _, w') => (Respond req 500 R_auth_error, w')
    | (Throw e', w') => (Rejected req e', w')
    end.

(** [authenticateToken(req, res, next)]. *)
Definition authenticateToken (env : Env) (db : Db) (clock : Clock)
  (req : Request) (w : World) : Outcome * World :=
  match extractToken req with
  | None => (Respond req 401 R_required, w)
  | Some token =>
      match verify token (JWT_SECRET env) (now clock) with
      | Throw e => auth_catch req e w
      | Return decoded =>
          match findById db (claim decoded "userId") with
          | Throw e => auth_catch req e w
          | Return None => (Respond req 401 R_not_found, w)
          | Return (Some u) =>
              if negb (isActive u) then (Respond req 401 R_disabled, w)
              else if isAccountLocked u (now clock) then (Respond req 401 R_locked, w)
              else
                let changedAt :=
                  match passwordChangedAt u with Some t => t | None => createdAt u end in
                if (iat decoded <? seconds changedAt)%Z
                then (Respond req 401 R_stale, w)
                else
                  let req' := attach_user req u in
                  match facility u with
                  | None =>
                      auth_catch req'
                        (plainError "TypeError" "Cannot read properties of null") w
                  | Some f =>
                      match logger "info" "User authenticated successfully"
                                   (VObj [("userId", VStr (_id u));
                                          ("email", VStr (email u));
                                          ("role", VStr (role u));
                                          ("facility", VStr (facility_name f));
                                          ("ip", VStr (ip req));
                                          ("userAgent", userAgent req)]) w with
                      | (Return _, w') => (Next req', w')
                      | (Throw e, w') => auth_catch req' e w'
                      end
                  end
          end
      end
  end.

(** [requirePermission(permission)]: a plain function with no [try], so what
    [logger.warn] throws leaves it. *)
Definition requirePermission (permission : string) (req : Request) (w : World)
  : Outcome * World :=
  match user req with
  | None => (Respond req 401 (msg2 "Authentication Required" "Please authenticate first"), w)
  | Some u =>
      if negb (hasPermission u permission)
      then
        match logger "warn" "Access denied - missing permission"
                     (VObj [("userId", VStr (_id u));
                            ("permission", VStr permission);
                            ("userLevel", VStr (accessLevel_name (accessLevel u)));
                            ("endpoint", VStr (originalUrl req));
                            ("method", VStr (method req))]) w with
        | (Return _, w') =>
            (Respond req 403
               (msg2 "Permission Denied"
                     (String.append "You don't have permission to " permission)), w')
        | (Throw e, w') => (Threw req e, w')
        end
      else (Next req, w)
  end.

(** [req.params.residentId || req.params.id || req.body.residentId]: the
    body is only read when both parameters are falsy, and reading a property
    of a [null] or [undefined] body throws. *)
Definition requestedResident (req : Request) : completion value :=
  if truthy (paramsResidentId req) then Return (paramsResidentId req)
  else if truthy (paramsId req) then Return (paramsId req)
  else if is_null (body req) || is_undefined (body req)
       then Throw (plainError "TypeError" "Cannot read properties of undefined")
       else Return (prop (body req) "residentId").

(** [assignedResidents.includes(residentId)]: only a string names an id. *)
Definition includes_id (ids : list string) (v : value) : bool :=
  match v with
  | VStr s => includes ids s
  | _ => false
  end.

Definition R_access_denied : value :=
  msg2 "Access Denied" "You do not have access to this resident's data".

(** The [catch] block of [requireResidentAccess]. *)
Definition resident_catch (req : Request) (e : js_error) (w : World)
  : Outcome * World :=
  match logger "error" "Error checking resident access:" (VStr (message e)) w with
  | (Return _, w') =>
      (Respond req 500
         (msg2 "Access Check Error"
               "An error occurred while checking access permissions"), w')
  | (Throw e', w') => (Rejected req e', w')
  end.

(** [requireResidentAccess(req, res, next)]. *)
Definition requireResidentAccess (req : Request) (w : World) : Outcome * World :=
  match requestedResident req with
  | Throw e => resident_catch req e w
  | Return residentId =>
      if negb (truthy residentId)
      then (Respond req 400 (msg2 "Bad Request" "Resident ID is required"), w)
      else
        match user req with
        | None =>
            resident_catch req
              (plainError "TypeError" "Cannot read properties of undefined") w
        | Some u =>
            match accessLevel u with
            | Admin => (Next req, w)
            | lvl =>
                let hasAccess :=
                  includes_id (assignedResidents u) residentId ||
                  match lvl with Senior => true | _ => false end in
                if negb hasAccess
                then
                  match logger "warn" "Access denied - resident access restricted"
                               (VObj [("userId", VStr (_id u));
                                      ("residentId", residentId);
                                      ("userLevel", VStr (accessLevel_name lvl));
                                      ("endpoint", VStr (originalUrl req))]) w with
                  | (Return _, w') => (Respond req 403 R_access_denied, w')
                  | (Throw e, w') => resident_catch req e w'
                  end
                else (Next req, w)
            end
        end
  end.

(** routes/dailyLogs.js, [PUT /:id]:
    [log.createdBy.toString() === req.user.id ||
     ['Admin', 'Senior'].includes(req.user.role)]. *)
Definition canEdit (createdBy : string) (u : Staff) : bool :=
  String.eqb createdBy (_id u) || includes ["Admin"; "Senior"] (role u).

End AuthMiddleware.
Import AuthMiddleware.

(* ================================================================== *)
(** ** middleware/auditLogger.js *)
(* ================================================================== *)

Module AuditLogger.

Definition sensitiveEndpoints : list string :=
  [ "/api/auth"; "/api/residents"; "/api/care-plans"; "/api/daily-logs";
    "/api/staff"; "/api/reports"; "/api/risk-assessments" ].

(** [sensitiveEndpoints.some(endpoint => url.startsWith(endpoint))]. *)
Definition requiresAuditLogging (url : string) : bool :=
  existsb (fun endpoint => String.prefix endpoint url) sensitiveEndpoints.

(** [req.user?.f]. *)
Definition user_field (req : Request) (f : Staff -> value) : value :=
  match user req with
  | Some u => f u
  | None => VUndefined
  end.

(** [extractUserInfo(req)]. *)
Definition extractUserInfo (req : Request) : list (string * value) :=
  [ ("userId", js_or (user_field req (fun u => VStr (_id u))) (VStr "anonymous"));
    ("userEmail", js_or (user_field req (fun u => VStr (email u))) (VStr "unknown"));
    ("userRole", js_or (user_field req (fun u => VStr (role u))) (VStr "unknown"));
    ("facilityId", js_or (user_field req staff_facilityId) (VStr "unknown"));
    ("sessionId", js_or (sessionID req) (VStr "unknown")) ].

(** [req.get('authorization')] is a non-empty string. *)
Definition has_authorization (req : Request) : bool :=
  match authorization req with
  | Some (Bearer _) => true
  | Some (OtherScheme t) => negb (String.eqb t "")
  | None => false
  end.

Definition decimal (z : Z) : string := NilZero.string_of_int (Z.to_int z).

(** [createAuditEntry(req, res, responseTime)], with [res.statusCode] as
    [statusCode]. *)
Definition createAuditEntry (req : Request) (statusCode : Z) (responseTime : Z)
  (clock : Clock) : value :=
  VObj
    ([ ("timestamp", VStr (isoNow clock));
       ("eventType", VStr "API_ACCESS");
       ("action", VStr (String.append (method req)
                          (String.append " " (originalUrl req)))) ]
     ++ extractUserInfo req ++
     [ ("requestDetails",
        VObj [ ("method", VStr (method req));
               ("url", VStr (originalUrl req));
               ("userAgent", userAgent req);
               ("ip", VStr (ip req));
               ("headers",
                redactSensitiveData
                  (VObj [ ("x-forwarded-for", forwardedFor req);
                          ("authorization",
                           if has_authorization req then VStr "[REDACTED]"
                           else VUndefined) ])) ]);
       ("requestBody",
        if negb (String.eqb (method req) "GET")
        then redactSensitiveData (body req) else VUndefined);
       ("responseDetails",
        VObj [ ("statusCode", VNum statusCode);
               ("responseTime", VStr (String.append (decimal responseTime) "ms")) ]);
       ("compliance",
        VObj [ ("cqcRelevant", VBool true);
               ("gdprCompliant", VBool true);
               ("retentionPeriod", VStr "7 years") ]) ]).

(** [s.includes(sub)]. *)
Definition str_includes (s sub : string) : bool :=
  match String.index 0 sub s with
  | Some _ => true
  | None => false
  end.

Definition when (b : bool) (m : M unit) : M unit := if b then m else ret tt.

(** The [res.send] that [auditLogger] installs; its result is what
    [originalSend] puts on the wire, and what it throws leaves [res.send]. *)
Definition wrappedSend (disk : Disk) (clock : Clock) (responseTime : Z)
  (req : Request) (statusCode : Z) (data : value) : M (Z * value) :=
  when (requiresAuditLogging (originalUrl req) || (400 <=? statusCode)%Z)
    (let auditEntry := createAuditEntry req statusCode responseTime clock in
     logger "info" "AUDIT" auditEntry ;;;
     detached
       (catch (appendFile disk auditEntry)
              (fun err => logger "error" "Failed to write audit log:"
                                 (VStr (message err)))) ;;;
     when ((statusCode =? 401)%Z || (statusCode =? 403)%Z)
       (logger "warn" "SECURITY_EVENT"
          (VObj (("type", VStr "UNAUTHORIZED_ACCESS") :: spread auditEntry))) ;;;
     when (String.eqb (method req) "GET" && str_includes (originalUrl req) "/residents/")
       (logger "info" "DATA_ACCESS"
          (VObj ([("type", VStr "RESIDENT_DATA_ACCESS");
                  ("residentId", paramsId req)]
                 ++ extractUserInfo req ++
                 [("timestamp", VStr (isoNow clock))]))) ;;;
     when (includes ["POST"; "PUT"; "PATCH"; "DELETE"] (method req))
       (logger "info" "DATA_MODIFICATION"
          (VObj ([("type", VStr "DATA_CHANGE");
                  ("action", VStr (method req));
                  ("resource", VStr (originalUrl req))]
                 ++ extractUserInfo req ++
                 [("timestamp", VStr (isoNow clock))])))) ;;;
  ret (statusCode, data).

(** The entry [auditCareEvent] builds. *)
Definition careAuditEntry (clock : Clock) (eventType : string) (details : value)
  (userId : value) : value :=
  VObj [ ("timestamp", VStr (isoNow clock));
         ("eventType", VStr "CARE_EVENT");
         ("careEventType", VStr eventType);
         ("userId", userId);
         ("details", redactSensitiveData details);
         ("compliance",
          VObj [ ("cqcRelevant", VBool true);
                 ("careQualityImpact", VBool true) ]) ].

(** [auditCareEvent(eventType, details, userId)]. *)
Definition auditCareEvent (disk : Disk) (clock : Clock)
  (eventType : string) (details : value) (userId : value) : M unit :=
  let auditEntry := careAuditEntry clock eventType details userId in
  logger "info" "CARE_AUDIT" auditEntry ;;;
  detached
    (catch (appendFile disk auditEntry)
           (fun err => logger "error" "Failed to write care audit log:"
                              (VStr (message err)))).

End AuditLogger.
Import AuditLogger.

(* ================================================================== *)
(** ** middleware/errorHandler.js *)
(* ================================================================== *)

Module App.

Definition join_comma (l : list string) : string := String.concat ", " l.

(** The chain of [if (err.name === ...)] of [errorHandler]: the status and
    the message.  [Object.values(err.errors)] and [Object.keys(err.keyValue)]
    throw a [TypeError] when the property is missing. *)
Definition classify (err : js_error) (statusCode : Z) (msg : string)
  : completion (Z * string) :=
  let missing := plainError "TypeError" "Cannot convert undefined or null to object" in
  if String.eqb (name err) "ValidationError" then
    match errors err with
    | Some msgs => Return (400%Z, String.append "Validation Error: " (join_comma msgs))
    | None => Throw missing
    end
  else if String.eqb (name err) "CastError" then Return (400%Z, "Invalid ID format")
  else if match code err with Some c => (c =? 11000)%Z | None => false end then
    match keyValue err with
    | Some keys =>
        Return (400%Z,
                String.append "Duplicate value for "
                  (String.append (hd "undefined" keys) ". Please use another value."))
    | None => Throw missing
    end
  else if String.eqb (name err) "JsonWebTokenError" then Return (401%Z, "Invalid token")
  else if String.eqb (name err) "TokenExpiredError" then Return (401%Z, "Token expired")
  else if String.eqb (name err) "UnauthorizedError" then Return (401%Z, "Unauthorized access")
  else if String.eqb (name err) "ForbiddenError" then Return (403%Z, "Access forbidden")
  else if String.eqb (name err) "NotFoundError" then Return (404%Z, "Resource not found")
  else if String.eqb (name err) "ConflictError"
  then Return (409%Z, "Conflict with existing resource")
  else if String.eqb (name err) "RateLimitError"
  then Return (429%Z, "Too many requests, please try again later")
  else Return (statusCode, msg).

(** [errorHandler(err, req, res, next)]: the status and body it hands to
    [res.status(statusCode).json(response)].  The errors modelled here carry
    no [details], so the development reply has [details: null]. *)
Definition errorHandler (env : Env) (clock : Clock) (err : js_error) (req : Request)
  : M (Z * value) :=
  let statusCode0 :=
    match statusCode err with
    | Some c => if (c =? 0)%Z then 500%Z else c
    | None => 500%Z
    end in
  let message0 :=
    if String.eqb (message err) "" then "Internal Server Error" else message err in
  logger "error" "Error occurred:"
    (VObj [ ("error", VStr (message err));
            ("stack", VStr (stack err));
            ("url", VStr (originalUrl req));
            ("method", VStr (method req));
            ("ip", VStr (ip req));
            ("userAgent", userAgent req);
            ("userId", user_field req (fun u => VStr (_id u)));
            ("timestamp", VStr (isoNow clock)) ]) ;;;
  match classify err statusCode0 message0 with
  | Throw e => throw e
  | Return (status, msg) =>
      let msg' :=
        if String.eqb (NODE_ENV env) "production" && (status =? 500)%Z
        then "Something went wrong. Please try again later." else msg in
      when ((status =? 401)%Z || (status =? 403)%Z)
        (logger "warn" "Security event:"
           (VObj [ ("type", VStr "UNAUTHORIZED_ACCESS_ATTEMPT");
                   ("ip", VStr (ip req));
                   ("url", VStr (originalUrl req));
                   ("method", VStr (method req));
                   ("userAgent", userAgent req);
                   ("userId", user_field req (fun u => VStr (_id u)));
                   ("facilityId", user_field req staff_facilityId);
                   ("timestamp", VStr (isoNow clock)) ])) ;;;
      let error :=
        [ ("message", VStr msg'); ("status", VNum status);
          ("timestamp", VStr (isoNow clock)) ]
        ++ (if String.eqb (NODE_ENV env) "development"
            then [("stack", VStr (stack err)); ("details", VNull)] else []) in
      ret (status, VObj [("success", VBool false); ("error", VObj error)])
  end.

End App.
Import App.

(* ================================================================== *)
(** ** Sample data *)
(* ================================================================== *)

Module Sample.

Definition env0 : Env := mkEnv "s3cret" None None "production".

Definition home : Facility := mkFacility "f1" "Rose Court".

Definition carer : Staff :=
  mkStaff "u1" "carer@home.test" "Carer" Carer true false None
          (Some 0%Z) 0%Z ["r1"] (Some home).

Definition senior : Staff :=
  mkStaff "u2" "senior@home.test" "Senior Carer" Senior true false None
          (Some 0%Z) 0%Z [] (Some home).

Definition admin : Staff :=
  mkStaff "u3" "admin@home.test" "Administrator" Admin true false None
          (Some 0%Z) 0%Z [] (Some home).

(** Active, [lockUntil] in the future, but the [accountLocked] flag is not
    set. *)
Definition half_locked : Staff :=
  mkStaff "u4" "hl@home.test" "Carer" Carer true false (Some 9000000%Z)
          (Some 0%Z) 0%Z [] (Some home).

Definition disabled : Staff :=
  mkStaff "u5" "off@home.test" "Carer" Carer false false None
          (Some 0%Z) 0%Z [] (Some home).

Definition db0 : Db := mkDb [carer; senior; admin; half_locked; disabled] true.

(** A clock reading; the samples share one rendering of the date, which no
    statement inspects. *)
Definition at_ms (t : Z) : Clock := mkClock t "1970-01-01T00:33:20.000Z".

Definition world0 : World := mkWorld [].

Definition request (m url : string) (h : option auth_header) (rid : value) : Request :=
  mkRequest m url "10.0.0.1" (VStr "agent") VUndefined h None VUndefined rid
            (VObj []) VUndefined None.

(** A token that names its subject in the [userId] claim, as
    [authenticateToken] reads it. *)
Definition token_for (id : string) (issued : Z) : wire :=
  sign [("userId", VStr id)] (JWT_SECRET env0) (accessTtl env0) issued.

(** A request that presents the access token issued to [carer] at
    1 000 000 ms. *)
Definition issued_request : Request :=
  request "GET" "/api/residents"
    (Some (Bearer (accessToken (generateTokens env0 (at_ms 1000000) carer))))
    VUndefined.


End Sample.
Import Sample.

(* ================================================================== *)
(** ** Vocabulary of the statements *)
(* ================================================================== *)

(** A property list is settled when every sensitive property is the marker
    or falsy: the marking pass has nothing left to do on it. *)
Definition settled_at (o : list (string * value)) (f : string) : Prop :=
  get o f = REDACTED \/ truthy (get o f) = false.

(** What the recursive pass does to one property value. *)
Definition visit (recur : value -> option value) (v : value) : option value :=
  if typeof_object v && negb (is_null v) then recur v else Some v.

Definition base_capabilities : list string :=
  ["view_residents"; "create_logs"; "view_care_plans"; "complete_tasks"].

Definition elevated_capabilities : list string :=
  ["create_care_plans"; "view_reports"; "manage_tasks"].

(** Whether [wrappedSend] writes an audit entry for this reply. *)
Definition audited (req : Request) (statusCode : Z) : bool :=
  requiresAuditLogging (originalUrl req) || (400 <=? statusCode)%Z.


(** The ways a credential can fail. *)
Inductive auth_failure : Type :=
| Absent | Garbled | BadSignature | Expired | Stale.

(** The request presents a credential that fails for the given reason. *)
Inductive presents (env : Env) (db : Db) (clock : Clock) (req : Request)
  : auth_failure -> Prop :=
| presents_absent :
    extractToken req = None -> presents env db clock req Absent
| presents_garbled : forall text,
    extractToken req = Some (Raw text) -> presents env db clock req Garbled
| presents_bad_signature : forall key c,
    extractToken req = Some (Jws key c) ->
    key <> JWT_SECRET env ->
    presents env db clock req BadSignature
| presents_expired : forall c,
    extractToken req = Some (Jws (JWT_SECRET env) c) ->
    (exp c <= seconds (now clock))%Z ->
    presents env db clock req Expired
| presents_stale : forall c u t,
    extractToken req = Some (Jws (JWT_SECRET env) c) ->
    (seconds (now clock) < exp c)%Z ->
    findById db (claim c "userId") = Return (Some u) ->
    isActive u = true ->
    isAccountLocked u (now clock) = false ->
    passwordChangedAt u = Some t ->
    (iat c < seconds t)%Z ->
    presents env db clock req Stale.

(** The body sent for each reason. *)
Definition public_reply (k : auth_failure) : value :=
  match k with
  | Absent => R_required
  | Garbled | BadSignature => R_invalid
  | Expired => R_expired
  | Stale => R_stale
  end.


(* ================================================================== *)
(** ** More of the audit logger, the auth middleware and the routes *)
(* ================================================================== *)

Module AuditSiblings.

(** [v === null || v === undefined]: the values on which a property read
    throws. *)
Definition nullish (v : value) : bool := is_null v || is_undefined v.

Definition read_of_nullish : js_error :=
  plainError "TypeError" "Cannot read properties of undefined".

(** [v === 'text']. *)
Definition is_string (v : value) (s : string) : bool :=
  match v with
  | VStr t => String.eqb t s
  | _ => false
  end.

(** The entry [auditIncident] builds; the details are read property by
    property and written as they are. *)
Definition incidentEntry (clock : Clock) (incidentDetails reportedBy : value) : value :=
  VObj [ ("timestamp", VStr (isoNow clock));
         ("eventType", VStr "INCIDENT_REPORT");
         ("incidentId", prop incidentDetails "id");
         ("severity", prop incidentDetails "severity");
         ("reportedBy", reportedBy);
         ("facilityId", prop incidentDetails "facilityId");
         ("compliance",
          VObj [ ("cqcNotificationRequired",
                  VBool (is_string (prop incidentDetails "severity") "critical"));
                 ("safeguardingRelevant",
                  VBool (is_string (prop incidentDetails "type") "safeguarding")) ]) ].

(** [auditIncident(incidentDetails, reportedBy)]: reading [incidentDetails.id]
    throws when the details are [null] or [undefined]. *)
Definition auditIncident (disk : Disk) (clock : Clock)
  (incidentDetails reportedBy : value) : M unit :=
  if nullish incidentDetails then throw read_of_nullish
  else
    let auditEntry := incidentEntry clock incidentDetails reportedBy in
    logger "warn" "INCIDENT_AUDIT" auditEntry ;;;
    detached
      (catch (appendFile disk auditEntry)
             (fun err => logger "error" "Failed to write incident audit log:"
                                (VStr (message err)))).

Definition medicationEntry (clock : Clock) (medicationDetails administeredBy : value)
  : value :=
  VObj [ ("timestamp", VStr (isoNow clock));
         ("eventType", VStr "MEDICATION_ADMINISTRATION");
         ("residentId", prop medicationDetails "residentId");
         ("medicationName", prop medicationDetails "name");
         ("dosage", prop medicationDetails "dosage");
         ("administeredBy", administeredBy);
         ("verifiedBy", prop medicationDetails "verifiedBy");
         ("compliance",
          VObj [ ("cqcRelevant", VBool true);
                 ("safetyMonitoring", VBool true) ]) ].

(** [auditMedication(medicationDetails, administeredBy)]. *)
Definition auditMedication (disk : Disk) (clock : Clock)
  (medicationDetails administeredBy : value) : M unit :=
  if nullish medicationDetails then throw read_of_nullish
  else
    let auditEntry := medicationEntry clock medicationDetails administeredBy in
    logger "info" "MEDICATION_AUDIT" auditEntry ;;;
    detached
      (catch (appendFile disk auditEntry)
             (fun err => logger "error" "Failed to write medication audit log:"
                                (VStr (message err)))).

Definition carePlanEntry (clock : Clock) (carePlanId changes modifiedBy : value) : value :=
  VObj [ ("timestamp", VStr (isoNow clock));
         ("eventType", VStr "CARE_PLAN_MODIFICATION");
         ("carePlanId", carePlanId);
         ("changes", redactSensitiveData changes);
         ("modifiedBy", modifiedBy);
         ("compliance",
          VObj [ ("cqcRelevant", VBool true);
                 ("personCenteredCare", VBool true) ]) ].

(** [auditCarePlanChange(carePlanId, changes, modifiedBy)]. *)
Definition auditCarePlanChange (disk : Disk) (clock : Clock)
  (carePlanId changes modifiedBy : value) : M unit :=
  let auditEntry := carePlanEntry clock carePlanId changes modifiedBy in
  logger "info" "CARE_PLAN_AUDIT" auditEntry ;;;
  detached
    (catch (appendFile disk auditEntry)
           (fun err => logger "error" "Failed to write care plan audit log:"
                              (VStr (message err)))).

End AuditSiblings.
Import AuditSiblings.

Module AuthMore.

(** The argument of [requireAccessLevel]: one level or an array of
    levels. *)
Inductive Required : Type :=
| OneLevel (level : string)
| Levels (levels : list string).

(** [Array.isArray(requiredLevel) ? requiredLevel : [requiredLevel]]. *)
Definition requiredLevels (requiredLevel : Required) : list string :=
  match requiredLevel with
  | OneLevel l => [l]
  | Levels ls => ls
  end.

(** [requireAccessLevel(requiredLevel)]: a plain function with no [try]. *)
Definition requireAccessLevel (requiredLevel : Required) (req : Request) (w : World)
  : Outcome * World :=
  match user req with
  | None => (Respond req 401 (msg2 "Authentication Required" "Please authenticate first"), w)
  | Some u =>
      let userLevel := accessLevel_name (accessLevel u) in
      let levels := requiredLevels requiredLevel in
      if negb (includes levels userLevel)
      then
        match logger "warn" "Access denied - insufficient permissions"
                     (VObj [("userId", VStr (_id u));
                            ("userLevel", VStr userLevel);
                            ("requiredLevels", VArr (map VStr levels));
                            ("endpoint", VStr (originalUrl req));
                            ("method", VStr (method req))]) w with
        | (Return _, w') =>
            (Respond req 403
               (msg2 "Insufficient Permissions"
                     (String.append "This action requires "
                        (String.append (String.concat " or " levels)
                                       " access level"))), w')
        | (Throw e, w') => (Threw req e, w')
        end
      else (Next req, w)
  end.

(** [optionalAuth(req, res, next)]: only the bearer header is read, and
    whatever goes wrong ends in [next()].  The user is put on the request
    before [user.facility._id] is read, so a missing facility leaves the
    user attached as well. *)
Definition optionalAuth (env : Env) (db : Db) (clock : Clock)
  (req : Request) (w : World) : Outcome * World :=
  let token :=
    match authorization req with
    | Some (Bearer t) => if wire_truthy t then Some t else None
    | _ => None
    end in
  match token with
  | None => (Next req, w)
  | Some t =>
      match verify t (JWT_SECRET env) (now clock) with
      | Throw _ => (Next req, w)
      | Return decoded =>
          match findById db (claim decoded "userId") with
          | Throw _ => (Next req, w)
          | Return None => (Next req, w)
          | Return (Some u) =>
              if isActive u then (Next (attach_user req u), w) else (Next req, w)
          end
      end
  end.

End AuthMore.
Import AuthMore.

Module LoginAttempts.

(** The stored staff document together with its [loginAttempts] path (an
    unset path reads as the schema default 0). *)
Record LoginState : Type := mkLogin {
  doc : Staff;
  loginAttempts : Z
}.

Definition set_lock (u : Staff) (locked : bool) (until : option Z) : Staff :=
  mkStaff (_id u) (email u) (role u) (accessLevel u) (isActive u)
          locked until (passwordChangedAt u) (createdAt u)
          (assignedResidents u) (facility u).

Definition TWO_HOURS : Z := (2 * 60 * 60 * 1000)%Z.

(** [incrementLoginAttempts()]: the document after the update the method
    issues. *)
Definition incrementLoginAttempts (s : LoginState) (now : Z) : LoginState :=
  let counted :=
    if (5 <=? loginAttempts s + 1)%Z && negb (isAccountLocked (doc s) now)
    then mkLogin (set_lock (doc s) true (Some (now + TWO_HOURS)%Z))
                 (loginAttempts s + 1)
    else mkLogin (doc s) (loginAttempts s + 1) in
  match lockUntil (doc s) with
  | Some t =>
      if (t <? now)%Z
      then mkLogin (set_lock (doc s) (accountLocked (doc s)) None) 1
      else counted
  | None => counted
  end.

(** [resetLoginAttempts()]; the [lastLogin] path it also sets is not part of
    the record. *)
Definition resetLoginAttempts (s : LoginState) : LoginState :=
  mkLogin (set_lock (doc s) false None) 0.

(** The stored lock paths agree: a [lockUntil] is only present on a
    document whose [accountLocked] flag is set. *)
Definition lock_paths_agree (u : Staff) : Prop :=
  lockUntil u = None \/ accountLocked u = true.

End LoginAttempts.
Import LoginAttempts.

Module MoreRoutes.

(** [s.replace(pattern, '')] with a string pattern: the first occurrence is
    removed. *)
Definition remove_first (pattern s : string) : string :=
  match String.index 0 pattern s with
  | Some n =>
      String.append
        (String.substring 0 n s)
        (String.substring (n + String.length pattern)
                          (String.length s - (n + String.length pattern)) s)
  | None => s
  end.

(** [req.header('Authorization')?.replace('Bearer ', '')]. *)
Definition headerToken (req : Request) : option wire :=
  match authorization req with
  | Some (Bearer t) => Some t
  | Some (OtherScheme text) => Some (Raw (remove_first "Bearer " text))
  | None => None
  end.

(** The handler of [GET /api/auth/verify-token]: [Return] is the user of the
    200 reply with [tokenValid: true]. *)
Definition verifyToken (env : Env) (db : Db) (clock : Clock) (req : Request)
  : completion Staff :=
  match headerToken req with
  | None => Throw (UnauthorizedError "No token provided")
  | Some token =>
      if negb (wire_truthy token)
      then Throw (UnauthorizedError "No token provided")
      else
        let attempt : completion Staff :=
          match verify token (JWT_SECRET env) (now clock) with
          | Throw e => Throw e
          | Return decoded =>
              match findById db (claim decoded "id") with
              | Throw e => Throw e
              | Return None => Throw (UnauthorizedError "User not found or inactive")
              | Return (Some u) =>
                  if negb (isActive u)
                  then Throw (UnauthorizedError "User not found or inactive")
                  else Return u
              end
          end in
        match attempt with
        | Return u => Return u
        | Throw _ => Throw (UnauthorizedError "Invalid token")
        end
  end.

(** The token [POST /api/auth/forgot-password] signs: one hour, the same
    secret. *)
Definition resetTokenFor (env : Env) (clock : Clock) (u : Staff) : wire :=
  sign [("id", VStr (_id u)); ("purpose", VStr "password-reset")]
       (JWT_SECRET env) 3600 (now clock).

Definition DAY : Z := (24 * 60 * 60 * 1000)%Z.

(** The two permission checks of [PUT /api/daily-logs/:id] on a log created
    by [createdBy]: [canEdit], then the 24 hour window of a carer,
    [(new Date() - log.timestamp) / (1000 * 60 * 60) > 24].  [timestamp] is
    [log.timestamp]: [None] when the document has no such path, which makes
    the difference [NaN] and the comparison false. *)
Definition editCheck (createdBy : string) (timestamp : option Z) (u : Staff) (now : Z)
  : completion unit :=
  let tooOld :=
    match timestamp with
    | Some t => (DAY <? now - t)%Z
    | None => false
    end in
  if negb (canEdit createdBy u)
  then Throw (ForbiddenError
                "You can only edit your own logs unless you are an admin or senior carer")
  else if String.eqb (role u) "Carer" && tooOld
       then Throw (ForbiddenError "Logs can only be edited within 24 hours of creation")
       else Return tt.

(** The values the Staff schema allows for [role]. *)
Definition role_enum : list string :=
  [ "Carer"; "Senior Carer"; "Manager"; "Administrator"; "Nurse";
    "Activities Coordinator"; "Maintenance"; "Kitchen Staff"; "Housekeeping" ].

End MoreRoutes.
Import MoreRoutes.

(** *** Vocabulary of the further statements *)

Definition is_marker (v : value) : bool :=
  match v with
  | VStr s => String.eqb s "[REDACTED]"
  | _ => false
  end.

(** The property [f] of [o] is the marker or falsy. *)
Definition settled_b (o : list (string * value)) (f : string) : bool :=
  is_marker (get o f) || negb (truthy (get o f)).

(** No object anywhere in [v] has a truthy value other than the marker
    under a name of the denylist. *)
Fixpoint clean (v : value) : bool :=
  match v with
  | VObj o =>
      forallb (settled_b o) sensitiveFields
      && forallb (fun kv => clean (snd kv)) o
  | VArr items => forallb clean items
  | _ => true
  end.

(** [v] has no array and no property named on the denylist, at any
    depth. *)
Fixpoint plain (v : value) : bool :=
  match v with
  | VObj o =>
      forallb (fun kv => negb (includes sensitiveFields (fst kv)) && plain (snd kv)) o
  | VArr _ => false
  | _ => true
  end.

(** What the recursive pass of the redaction makes of one property
    value. *)
Definition redact_value (v : value) : value :=
  if typeof_object v && negb (is_null v) then redactSensitiveData v else v.


(* ================================================================== *)
(** * Properties *)
(* ================================================================== *)

(** ** Redaction *)

Section RedactionFacts.

Lemma get_set_same : forall o k v, get (set o k v) k = v.
Proof.
  induction o as [|[k' v'] o IH]; intros k v; simpl.
  - now rewrite String.eqb_refl.
  - destruct (String.eqb k' k) eqn:E; simpl; rewrite E; auto.
Qed.

Lemma get_set_other : forall o k k' v,
  String.eqb k k' = false -> get (set o k v) k' = get o k'.
Proof.
  induction o as [|[k0 v0] o IH]; intros k k' v Hne; simpl.
  - now rewrite Hne.
  - destruct (String.eqb k0 k) eqn:E; simpl.
    + apply String.eqb_eq in E; subst k0. now rewrite Hne.
    + destruct (String.eqb k0 k'); auto.
Qed.

(** Writing the value a property already has changes nothing. *)
Lemma set_get_id : forall o k,
  truthy (get o k) = true -> set o k (get o k) = o.
Proof.
  induction o as [|[k' v'] o IH]; intros k Ht; simpl in *.
  - discriminate.
  - destruct (String.eqb k' k) eqn:E; auto.
    now rewrite IH.
Qed.

Lemma mark_field_settles : forall o f, settled_at (mark_field o f) f.
Proof.
  intros o f. unfold mark_field, settled_at.
  destruct (truthy (get o f)) eqn:E.
  - left. apply get_set_same.
  - now right.
Qed.

Lemma mark_field_keeps : forall o f g, settled_at o f -> settled_at (mark_field o g) f.
Proof.
  intros o f g H. unfold mark_field.
  destruct (truthy (get o g)) eqn:E; auto.
  unfold settled_at. destruct (String.eqb g f) eqn:Egf.
  - apply String.eqb_eq in Egf; subst g. left. apply get_set_same.
  - now rewrite get_set_other.
Qed.

Lemma fold_mark_keeps : forall fields o f,
  settled_at o f -> settled_at (fold_left mark_field fields o) f.
Proof.
  induction fields as [|g fields IH]; intros o f H; simpl; auto.
  apply IH. now apply mark_field_keeps.
Qed.

Lemma fold_mark_settles : forall fields o f,
  In f fields -> settled_at (fold_left mark_field fields o) f.
Proof.
  induction fields as [|g fields IH]; intros o f Hin; simpl.
  - destruct Hin.
  - destruct Hin as [->|Hin].
    + apply fold_mark_keeps, mark_field_settles.
    + now apply IH.
Qed.

Lemma mark_field_settled_id : forall o f, settled_at o f -> mark_field o f = o.
Proof.
  intros o f [H|H]; unfold mark_field.
  - destruct (truthy (get o f)) eqn:E; auto.
    rewrite <- H. now apply set_get_id.
  - now rewrite H.
Qed.

Lemma fold_mark_settled_id : forall fields o,
  (forall f, In f fields -> settled_at o f) -> fold_left mark_field fields o = o.
Proof.
  induction fields as [|g fields IH]; intros o H; simpl; auto.
  rewrite mark_field_settled_id by (apply H; now left).
  apply IH. intros f Hf. apply H. now right.
Qed.

Lemma walk_cons : forall recur key v rest,
  walk recur ((key, v) :: rest) =
  match visit recur v, walk recur rest with
  | Some v', Some rest' => Some ((key, v') :: rest')
  | _, _ => None
  end.
Proof. reflexivity. Qed.

Lemma visit_fixed : forall recur v,
  v = REDACTED \/ truthy v = false -> visit recur v = Some v.
Proof.
  intros recur v [->|H]; [reflexivity|].
  unfold visit. destruct v; simpl in *; try discriminate; reflexivity.
Qed.

(** The recursive pass leaves settled property lists settled. *)
Lemma walk_get : forall recur o o' k,
  walk recur o = Some o' ->
  get o k = VUndefined /\ get o' k = VUndefined \/
  visit recur (get o k) = Some (get o' k).
Proof.
  induction o as [|[key v] o IH]; intros o' k H.
  - inversion H; subst. now left.
  - rewrite walk_cons in H.
    destruct (visit recur v) as [v'|] eqn:Ev; try discriminate.
    destruct (walk recur o) as [rest'|] eqn:Er; try discriminate.
    inversion H; subst o'. simpl.
    destruct (String.eqb key k); auto.
Qed.

Lemma walk_settled : forall recur o o' f,
  walk recur o = Some o' -> settled_at o f -> settled_at o' f.
Proof.
  intros recur o o' f Hw Hs.
  destruct (walk_get recur o o' f Hw) as [[_ H]|H].
  - right. now rewrite H.
  - rewrite (visit_fixed recur _ Hs) in H. inversion H as [H1].
    unfold settled_at. now rewrite <- H1.
Qed.

Lemma walk_mono : forall (r1 r2 : value -> option value) o o',
  (forall v v', r1 v = Some v' -> r2 v = Some v') ->
  walk r1 o = Some o' -> walk r2 o = Some o'.
Proof.
  intros r1 r2 o. induction o as [|[key v] o IH]; intros o' Hr H; auto.
  rewrite walk_cons in *.
  destruct (visit r1 v) as [v'|] eqn:Ev; try discriminate.
  destruct (walk r1 o) as [rest'|] eqn:Er; try discriminate.
  rewrite (IH rest' Hr eq_refl).
  assert (visit r2 v = Some v') as ->; auto.
  unfold visit in *. destruct (typeof_object v && negb (is_null v)); auto.
Qed.

(** A second recursive pass over the output of the first changes nothing,
    provided the recursion itself is idempotent. *)
Lemma walk_idem : forall recur o o',
  (forall v v', recur v = Some v' -> recur v' = Some v') ->
  walk recur o = Some o' -> walk recur o' = Some o'.
Proof.
  intros recur o. induction o as [|[key v] o IH]; intros o' Hr H.
  - inversion H; subst. reflexivity.
  - rewrite walk_cons in H.
    destruct (visit recur v) as [v'|] eqn:Ev; try discriminate.
    destruct (walk recur o) as [rest'|] eqn:Er; try discriminate.
    inversion H; subst o'. rewrite walk_cons.
    rewrite (IH rest' Hr eq_refl).
    assert (visit recur v' = Some v') as ->; auto.
    unfold visit in *.
    destruct (typeof_object v && negb (is_null v)) eqn:Eo.
    + destruct (typeof_object v' && negb (is_null v')); eauto.
    + inversion Ev; subst v'. now rewrite Eo.
Qed.

Lemma mark_settled : forall o f, In f sensitiveFields -> settled_at (mark o) f.
Proof. intros. now apply fold_mark_settles. Qed.

Lemma mark_id : forall o,
  (forall f, In f sensitiveFields -> settled_at o f) -> mark o = o.
Proof. intros. now apply fold_mark_settled_id. Qed.

Lemma redact_fuel_mono : forall n d v,
  redact_fuel n d = Some v -> redact_fuel (S n) d = Some v.
Proof.
  induction n as [|n IH]; intros d v H; [discriminate|].
  simpl in H. change (redact_fuel (S (S n)) d) with
    (if negb (truthy d) || negb (typeof_object d) then Some d
     else match walk (redact_fuel (S n)) (mark (spread d)) with
          | Some redacted => Some (VObj redacted)
          | None => None
          end).
  destruct (negb (truthy d) || negb (typeof_object d)); auto.
  destruct (walk (redact_fuel n) (mark (spread d))) as [o'|] eqn:Ew; try discriminate.
  now rewrite (walk_mono _ _ _ _ IH Ew).
Qed.

Lemma redact_fuel_le : forall n m d v,
  n <= m -> redact_fuel n d = Some v -> redact_fuel m d = Some v.
Proof.
  intros n m d v Hle H. induction Hle; auto using redact_fuel_mono.
Qed.

(** Redacting a redacted value with the same fuel returns it unchanged. *)
Lemma redact_fuel_idem : forall n d v,
  redact_fuel n d = Some v -> redact_fuel n v = Some v.
Proof.
  induction n as [|n IH]; intros d v H; [discriminate|].
  simpl in H.
  destruct (negb (truthy d) || negb (typeof_object d)) eqn:E.
  - inversion H; subst v. simpl. now rewrite E.
  - destruct (walk (redact_fuel n) (mark (spread d))) as [o'|] eqn:Ew; try discriminate.
    inversion H; subst v. simpl.
    assert (mark o' = o') as ->.
    { apply mark_id. intros f Hf.
      eapply walk_settled; eauto using mark_settled. }
    now rewrite (walk_idem _ _ _ IH Ew).
Qed.

Lemma depth_fields_indexed : forall items i,
  depth_fields (indexed i items) = fold_right (fun x m => Nat.max (depth x) m) 0 items.
Proof.
  induction items as [|x items IH]; intros i; [reflexivity|].
  unfold depth_fields in *. simpl. now rewrite IH.
Qed.

Lemma depth_spread : forall d,
  negb (truthy d) || negb (typeof_object d) = false ->
  depth d = S (depth_fields (spread d)).
Proof.
  intros [] H; simpl in H; try discriminate;
    try (rewrite orb_true_r in H; discriminate).
  - reflexivity.
  - simpl. now rewrite depth_fields_indexed.
Qed.

Lemma depth_fields_set : forall o k v,
  depth_fields (set o k v) <= Nat.max (depth_fields o) (depth v).
Proof.
  induction o as [|[k' v'] o IH]; intros k v; unfold depth_fields in *; simpl.
  - lia.
  - destruct (String.eqb k' k); simpl.
    + lia.
    + specialize (IH k v). lia.
Qed.

Lemma depth_fields_mark : forall o, depth_fields (mark o) <= depth_fields o.
Proof.
  intros o. unfold mark. generalize sensitiveFields as fields.
  intros fields; revert o.
  induction fields as [|f fields IH]; intros o; simpl; auto.
  etransitivity; [apply IH|].
  unfold mark_field. destruct (truthy (get o f)); auto.
  pose proof (depth_fields_set o f REDACTED) as H. simpl in H. lia.
Qed.

Lemma walk_total : forall recur n o,
  (forall v, depth v < n -> exists v', recur v = Some v') ->
  depth_fields o < n -> exists o', walk recur o = Some o'.
Proof.
  intros recur n o Hr. induction o as [|[key v] o IH]; intros Hd.
  - now exists [].
  - unfold depth_fields in *. simpl in Hd. rewrite walk_cons.
    destruct IH as [rest' ->]; [lia|].
    assert (exists v', visit recur v = Some v') as [v' ->]; [|eauto].
    unfold visit. destruct (typeof_object v && negb (is_null v)); eauto.
    apply Hr. lia.
Qed.

(** The descent always ends: fuel above the depth of the argument is
    enough. *)
Lemma redact_fuel_enough : forall n d,
  depth d < n -> exists v, redact_fuel n d = Some v.
Proof.
  induction n as [|n IH]; intros d Hd; [lia|].
  simpl. destruct (negb (truthy d) || negb (typeof_object d)) eqn:E; eauto.
  rewrite (depth_spread d E) in Hd.
  destruct (walk_total (redact_fuel n) n (mark (spread d)) IH) as [o' ->]; eauto.
  pose proof (depth_fields_mark (spread d)). lia.
Qed.

Lemma redact_fuel_spec : forall n d,
  depth d < n -> redact_fuel n d = Some (redactSensitiveData d).
Proof.
  intros n d Hd. unfold redactSensitiveData.
  destruct (redact_fuel_enough (S (depth d)) d) as [v Hv]; [lia|].
  rewrite Hv. apply (redact_fuel_le (S (depth d))); auto.
Qed.

Lemma walk_map : forall recur (f : value -> value) o,
  (forall key v, In (key, v) o -> visit recur v = Some (f v)) ->
  walk recur o = Some (map (fun kv => (fst kv, f (snd kv))) o).
Proof.
  intros recur f o. induction o as [|[key v] o IH]; intros H; auto.
  rewrite walk_cons, (H key v) by now left.
  rewrite IH; auto. intros k' v' Hin; apply (H k' v'); now right.
Qed.

Lemma depth_In : forall o key v, In (key, v) o -> depth v <= depth_fields o.
Proof.
  induction o as [|[k' v'] o IH]; intros key v Hin; [destruct Hin|].
  unfold depth_fields in *. simpl. destruct Hin as [E|Hin].
  - inversion E; subst. lia.
  - specialize (IH key v Hin). lia.
Qed.

(** The recursion equation of the source function. *)
Lemma redactSensitiveData_eq : forall data,
  redactSensitiveData data =
  if negb (truthy data) || negb (typeof_object data) then data
  else VObj (map (fun kv =>
                    (fst kv,
                     if typeof_object (snd kv) && negb (is_null (snd kv))
                     then redactSensitiveData (snd kv) else snd kv))
                 (mark (spread data))).
Proof.
  intros data.
  pose proof (redact_fuel_spec (S (depth data)) data (Nat.lt_succ_diag_r _)) as H.
  simpl in H.
  destruct (negb (truthy data) || negb (typeof_object data)) eqn:E.
  - congruence.
  - rewrite (walk_map (redact_fuel (depth data))
               (fun v => if typeof_object v && negb (is_null v)
                         then redactSensitiveData v else v)) in H.
    + congruence.
    + intros key v Hin. unfold visit.
      destruct (typeof_object v && negb (is_null v)); auto.
      apply redact_fuel_spec.
      pose proof (depth_In _ _ _ Hin). pose proof (depth_fields_mark (spread data)).
      rewrite (depth_spread data E). lia.
Qed.

End RedactionFacts.

Example redact_flat :
  redactSensitiveData
    (VObj [("email", VStr "a@b"); ("password", VStr "pw"); ("token", VStr "")])
  = VObj [("email", VStr "a@b"); ("password", REDACTED); ("token", VStr "")].
Proof. reflexivity. Qed.

Example redact_nested :
  redactSensitiveData
    (VObj [("resident", VObj [("nhsNumber", VNum 42); ("name", VStr "x")]);
           ("list", VArr [VObj [("medications", VArr [])]; VNull])])
  = VObj [("resident", VObj [("nhsNumber", REDACTED); ("name", VStr "x")]);
          ("list", VObj [("0", VObj [("medications", REDACTED)]); ("1", VNull)])].
Proof. reflexivity. Qed.

(** C6. Redaction is idempotent: redacting an already redacted payload,
    nested objects and arrays included, returns the identical payload; the
    marker is not marked again and no redacted value comes back. *)
Theorem redactSensitiveData_idempotent : forall data,
  redactSensitiveData (redactSensitiveData data) = redactSensitiveData data.
Proof.
  intros data.
  set (v := redactSensitiveData data).
  pose proof (redact_fuel_spec (S (depth data)) data (Nat.lt_succ_diag_r _)) as H1.
  apply redact_fuel_idem in H1. fold v in H1.
  pose proof (redact_fuel_spec (S (depth v)) v (Nat.lt_succ_diag_r _)) as H2.
  apply (redact_fuel_le _ (Nat.max (S (depth data)) (S (depth v)))) in H1; [|lia].
  apply (redact_fuel_le _ (Nat.max (S (depth data)) (S (depth v)))) in H2; [|lia].
  congruence.
Qed.

(* ================================================================== *)
(** ** Permission evaluator *)
(* ================================================================== *)

(** C4. [hasPermission] is a function of the access level and the capability
    name and agrees with the static table: a carer holds exactly the four
    base capabilities, a senior holds those and exactly three more (care
    plan authorship, reports, task management), none of which a carer
    holds, and an administrator passes every check. *)
Theorem hasPermission_static_table : forall (u : Staff) (c : string),
  hasPermission u c =
    match accessLevel u with
    | Carer => includes base_capabilities c
    | Senior => includes base_capabilities c || includes elevated_capabilities c
    | Admin => true
    end
  /\ forallb (fun x => negb (includes base_capabilities x)) elevated_capabilities = true
  /\ elevated_capabilities <> [].
Proof.
  intros u c. split; [|split; [reflexivity|discriminate]].
  unfold hasPermission. destruct (accessLevel u); simpl.
  - reflexivity.
  - repeat (destruct (String.eqb c _); simpl; try reflexivity).
  - reflexivity.
Qed.

Lemma includes_In : forall l s, includes l s = true <-> In s l.
Proof.
  intros l s. unfold includes. rewrite existsb_exists. split.
  - intros [x [Hin Heq]]. apply String.eqb_eq in Heq. now subst.
  - intros Hin. exists s. split; auto. apply String.eqb_refl.
Qed.

(** C5.  The ownership-or-escalation checks, as the code runs them.  On a
    resident, a senior or an administrator passes whether or not the
    resident is assigned to them, and a carer passes when the resident is
    among the assigned ones.  A carer who asks for a resident that is not
    assigned is not answered 403: the refusal first calls [logger.warn],
    which throws, the [catch] block calls [logger.error], which throws
    again, and the promise of the middleware is rejected with nothing sent.
    Editing a daily log is allowed exactly when the principal created it or
    has the role "Admin" or "Senior"; these are access levels, not values of
    the [role] enum of the schema, so on a staff record the schema accepts
    only the creator may edit. *)
Theorem resident_refusal_is_not_answered :
  forall (req : Request) (w : World) (u : Staff) (rid createdBy : string),
  user req = Some u ->
  requestedResident req = Return (VStr rid) ->
  rid <> "" ->
  (accessLevel u = Senior \/ accessLevel u = Admin ->
     requireResidentAccess req w = (Next req, w))
  /\ (accessLevel u = Carer -> In rid (assignedResidents u) ->
      requireResidentAccess req w = (Next req, w))
  /\ (accessLevel u = Carer -> ~ In rid (assignedResidents u) ->
      requireResidentAccess req w
      = (Rejected req (not_a_function "logger.error"), w))
  /\ (canEdit createdBy u = true
      <-> createdBy = _id u \/ In (role u) ["Admin"; "Senior"])
  /\ (In (role u) role_enum ->
      canEdit createdBy u = String.eqb createdBy (_id u)).
Proof.
  intros req w u rid createdBy Hu Hr Hne.
  assert (truthy (VStr rid) = true) as Ht.
  { cbn [truthy]. apply negb_true_iff. now apply String.eqb_neq. }
  repeat split.
  - intros [H|H]; unfold requireResidentAccess; rewrite Hr, Ht, Hu, H; cbn [negb].
    + now rewrite orb_true_r.
    + reflexivity.
  - intros H Hin. unfold requireResidentAccess. rewrite Hr, Ht, Hu, H. cbn [negb].
    cbn [includes_id]. apply includes_In in Hin. now rewrite Hin.
  - intros H Hin. unfold requireResidentAccess. rewrite Hr, Ht, Hu, H. cbn [negb].
    cbn [includes_id].
    destruct (includes (assignedResidents u) rid) eqn:E.
    + apply includes_In in E. contradiction.
    + reflexivity.
  - unfold canEdit. intros H. apply orb_true_iff in H as [H|H].
    + left. now apply String.eqb_eq.
    + right. now apply includes_In.
  - intros [->|H]; unfold canEdit; apply orb_true_iff.
    + left. apply String.eqb_refl.
    + right. now apply includes_In.
  - intros Hin. unfold canEdit.
    assert (includes ["Admin"; "Senior"] (role u) = false) as ->.
    { unfold role_enum in Hin. cbn [In] in Hin.
      repeat (destruct Hin as [Hin|Hin]; [rewrite <- Hin; reflexivity|]).
      contradiction. }
    apply orb_false_r.
Qed.

Lemma resident_refusal_is_not_answered_witness :
  let req := attach_user (request "PUT" "/api/residents/r9" None (VStr "r9")) carer in
  user req = Some carer /\
  requestedResident req = Return (VStr "r9") /\
  assignedResidents carer = ["r1"] /\
  requireResidentAccess req world0
  = (Rejected req (not_a_function "logger.error"), world0).
Proof.
  intros req.
  assert ("r9" <> "") as Hne by discriminate.
  assert (~ In "r9" (assignedResidents carer)) as Hout.
  { intros [H|[]]. discriminate H. }
  split; [reflexivity|split; [reflexivity|split; [reflexivity|]]].
  exact (proj1 (proj2 (proj2
           (resident_refusal_is_not_answered req world0 carer "r9" "u2"
              eq_refl eq_refl Hne))) eq_refl Hout).
Defined.

(* ================================================================== *)
(** ** Token codec and principal resolution *)
(* ================================================================== *)

Lemma verify_sign : forall body secret ttl t0 t,
  (seconds t < seconds t0 + ttl)%Z ->
  verify (sign body secret ttl t0) secret t =
  Return (mkClaims (filter (fun kv => negb (is_undefined (snd kv))) body)
                   (seconds t0) (seconds t0 + ttl)).
Proof.
  intros body secret ttl t0 t H. unfold verify, sign.
  rewrite String.eqb_refl. simpl.
  destruct (Z.leb_spec (seconds t0 + ttl) (seconds t)); [lia|reflexivity].
Qed.

Lemma verify_sign_expired : forall body secret ttl t0 t,
  (seconds t0 + ttl <= seconds t)%Z ->
  verify (sign body secret ttl t0) secret t =
  Throw (plainError "TokenExpiredError" "jwt expired").
Proof.
  intros body secret ttl t0 t H. unfold verify, sign.
  rewrite String.eqb_refl. simpl.
  destruct (Z.leb_spec (seconds t0 + ttl) (seconds t)); [reflexivity|lia].
Qed.

(** The codec on its own round-trips: inside the expiry window the access
    token of [generateTokens] verifies and its [id] claim is the id of the
    principal; from the expiry on, verification throws
    [TokenExpiredError]. *)
Lemma accessToken_round_trip : forall env u t0 iso0 t,
  let token := accessToken (generateTokens env (mkClock t0 iso0) u) in
  ((seconds t < seconds t0 + accessTtl env)%Z ->
   exists decoded,
     verify token (JWT_SECRET env) t = Return decoded
     /\ claim decoded "id" = VStr (_id u)
     /\ claim decoded "userId" = VUndefined
     /\ iat decoded = seconds t0)
  /\ ((seconds t0 + accessTtl env <= seconds t)%Z ->
      verify token (JWT_SECRET env) t =
      Throw (plainError "TokenExpiredError" "jwt expired")).
Proof.
  intros env u t0 iso0 t token. split; intros H.
  - eexists. split; [apply verify_sign; exact H|]. repeat split.
  - apply verify_sign_expired. exact H.
Qed.

(** C1.  The gate does not resolve the tokens the server issues.
    [generateTokens] stores the principal's id in the claim [id];
    [authenticateToken] looks the principal up by the claim [userId], which
    no issued token has, so inside the expiry window every request that
    presents an issued access token is answered 401 "User not found", also
    when the principal is stored and active.  After the window the answer is
    401 "Token Expired". *)
Theorem issued_token_not_resolved :
  forall env db u t0 iso0 clock req w,
  online db = true ->
  extractToken req = Some (accessToken (generateTokens env (mkClock t0 iso0) u)) ->
  ((seconds (now clock) < seconds t0 + accessTtl env)%Z ->
   authenticateToken env db clock req w = (Respond req 401 R_not_found, w))
  /\ ((seconds t0 + accessTtl env <= seconds (now clock))%Z ->
      authenticateToken env db clock req w = (Respond req 401 R_expired, w)).
Proof.
  intros env db u t0 iso0 clock req w Hon Htok.
  unfold authenticateToken. rewrite Htok. split; intros H.
  - destruct (accessToken_round_trip env u t0 iso0 (now clock)) as [Hin _].
    destruct (Hin H) as [decoded [Hv [_ [Hu _]]]].
    rewrite Hv, Hu. unfold findById. now rewrite Hon.
  - destruct (accessToken_round_trip env u t0 iso0 (now clock)) as [_ Hout].
    now rewrite (Hout H).
Qed.

Lemma issued_token_not_resolved_witness :
  online db0 = true /\
  extractToken issued_request
  = Some (accessToken (generateTokens env0 (at_ms 1000000) carer)) /\
  lookup_staff db0 (_id carer) = Some carer /\
  authenticateToken env0 db0 (at_ms 2000000) issued_request world0
  = (Respond issued_request 401 R_not_found, world0).
Proof.
  split; [reflexivity|split; [reflexivity|split; [reflexivity|]]].
  apply (issued_token_not_resolved env0 db0 carer 1000000
           "1970-01-01T00:33:20.000Z" (at_ms 2000000) issued_request world0
           eq_refl eq_refl).
  vm_compute. reflexivity.
Defined.

(* ================================================================== *)
(** ** What the gate answers *)
(* ================================================================== *)

(** The [catch] block of [authenticateToken] answers the two errors of the
    token library; on every other error its logging call throws. *)
Lemma auth_catch_cases : forall req e w,
  (exists reply, auth_catch req e w = (Respond req 401 reply, w))
  \/ auth_catch req e w = (Rejected req (not_a_function "logger.error"), w).
Proof.
  intros req e w. unfold auth_catch.
  destruct (String.eqb (name e) "JsonWebTokenError"); [left; eauto|].
  destruct (String.eqb (name e) "TokenExpiredError"); [left; eauto|].
  right. reflexivity.
Qed.




(* ================================================================== *)
(** ** Stale tokens *)
(* ================================================================== *)





(* ================================================================== *)
(** ** What the caller sees of an authentication failure *)
(* ================================================================== *)

(** C9 (amended).  Every authentication failure is answered with status 401,
    and the body names the reason: "Authentication Required" for an absent
    token, "Invalid Token" for a garbled or wrongly signed one, "Token
    Expired" for an expired one, "Token Invalid ... after password change"
    for a stale one.  [authenticateToken] itself logs nothing about it. *)
Theorem auth_failures_are_401 : forall env db clock req w k,
  presents env db clock req k ->
  authenticateToken env db clock req w = (Respond req 401 (public_reply k), w).
Proof.
  intros env db clock req w k H. unfold authenticateToken.
  destruct H as [Ht|text Ht|key c Ht Hk|c Ht He|c u t Ht He Hf Ha Hl Hp Hi];
    rewrite Ht; simpl.
  - reflexivity.
  - reflexivity.
  - apply String.eqb_neq in Hk. now rewrite Hk.
  - rewrite String.eqb_refl. simpl.
    apply Z.leb_le in He. now rewrite He.
  - rewrite String.eqb_refl. simpl.
    apply Z.leb_gt in He. rewrite He, Hf, Ha, Hl, Hp. simpl.
    apply Z.ltb_lt in Hi. now rewrite Hi.
Qed.

Lemma auth_failures_are_401_witness :
  presents env0 db0 (at_ms 700000000000)
    (request "GET" "/api/residents" (Some (Bearer (token_for "u1" 1000500))) VUndefined)
    Expired
  /\ authenticateToken env0 db0 (at_ms 700000000000)
       (request "GET" "/api/residents" (Some (Bearer (token_for "u1" 1000500))) VUndefined)
       world0
     = (Respond
          (request "GET" "/api/residents"
             (Some (Bearer (token_for "u1" 1000500))) VUndefined)
          401 R_expired, world0).
Proof.
  assert (presents env0 db0 (at_ms 700000000000)
            (request "GET" "/api/residents"
               (Some (Bearer (token_for "u1" 1000500))) VUndefined) Expired) as H.
  { apply (presents_expired _ _ _ _ (mkClaims [("userId", VStr "u1")] 1000 605800)).
    - reflexivity.
    - vm_compute. discriminate. }
  split; [exact H|].
  exact (auth_failures_are_401 env0 db0 (at_ms 700000000000) _ world0 Expired H).
Defined.

(** C9 as stated fails: the replies to an absent token and to an expired
    token are both 401 but carry different bodies, so the caller learns the
    reason. *)
Lemma auth_replies_reveal_reason :
  fst (authenticateToken env0 db0 (at_ms 700000000000)
         (request "GET" "/api/residents" None VUndefined) world0)
  = Respond (request "GET" "/api/residents" None VUndefined) 401
      (msg2 "Authentication Required" "Access token is required")
  /\ fst (authenticateToken env0 db0 (at_ms 700000000000)
            (request "GET" "/api/residents"
               (Some (Bearer (token_for "u1" 1000500))) VUndefined) world0)
     = Respond
         (request "GET" "/api/residents"
            (Some (Bearer (token_for "u1" 1000500))) VUndefined) 401
         (msg2 "Token Expired" "Your session has expired. Please log in again.")
  /\ msg2 "Authentication Required" "Access token is required"
     <> msg2 "Token Expired" "Your session has expired. Please log in again.".
Proof. repeat split; try reflexivity. discriminate. Qed.

(* ================================================================== *)
(** ** Token refresh *)
(* ================================================================== *)

(** C10.  The refresh route issues a fresh pair whenever the presented token
    verifies (signature and expiry) and its [id] claim names a stored, active
    staff record.  Nothing else is consulted: the statement holds for every
    [passwordChangedAt] of the record, in particular one later than the
    token's issued-at. *)
Theorem refresh_ignores_password_change :
  forall env db clock token decoded u,
  verify token (JWT_SECRET env) (now clock) = Return decoded ->
  findById db (claim decoded "id") = Return (Some u) ->
  isActive u = true ->
  refresh env db clock (Some token) = Return (generateTokens env clock u).
Proof.
  intros env db clock token decoded u Hv Hf Ha. unfold refresh.
  assert (wire_truthy token = true) as ->.
  { destruct token; [discriminate|reflexivity]. }
  cbn [negb]. now rewrite Hv, Hf, Ha.
Qed.

Lemma refresh_ignores_password_change_witness :
  (iat (mkClaims [("id", VStr "u1")] 1000 2593000)
   < seconds 1500900)%Z /\
  passwordChangedAt (changePassword carer 1500900) = Some 1500900%Z /\
  refresh env0 (save db0 (changePassword carer 1500900)) (at_ms 2000000)
    (Some (refreshToken (generateTokens env0 (at_ms 1000500) carer)))
  = Return (generateTokens env0 (at_ms 2000000) (changePassword carer 1500900)).
Proof.
  split; [reflexivity|split; [reflexivity|]].
  apply (refresh_ignores_password_change env0
           (save db0 (changePassword carer 1500900)) (at_ms 2000000)
           (refreshToken (generateTokens env0 (at_ms 1000500) carer))
           (mkClaims [("id", VStr "u1")] 1000 2593000)
           (changePassword carer 1500900));
    reflexivity.
Defined.

(* ================================================================== *)
(** ** The audit recorder *)
(* ================================================================== *)

(** The wrapped [res.send], case by case: a reply that is due for a record
    ends at the first logging call, before anything is appended and before
    the original [send]; every other reply is handed on untouched. *)
Lemma wrappedSend_eq : forall disk clock rt req s b w,
  wrappedSend disk clock rt req s b w
  = (if audited req s
     then Throw (not_a_function "logger.info") else Return (s, b), w).
Proof.
  intros disk clock rt req s b w.
  unfold wrappedSend, audited, when, bind, logger, throw, ret.
  destruct (requiresAuditLogging (originalUrl req) || (400 <=? s)%Z); reflexivity.
Qed.

Lemma auditCareEvent_eq : forall disk clock eventType details userId w,
  auditCareEvent disk clock eventType details userId w
  = (Throw (not_a_function "logger.info"), w).
Proof. reflexivity. Qed.

Example care_event_of_a_new_log :
  auditCareEvent None (at_ms 2000000) "DAILY_LOG_CREATED"
    (VObj [("logId", VStr "l1"); ("residentId", VStr "r1")]) (VStr "u1") world0
  = (Throw (plainError "TypeError" "logger.info is not a function"), world0).
Proof. reflexivity. Qed.

(** C7.  Recording an audit event raises on every call.  [auditCareEvent]
    throws a [TypeError] at its first statement after building the entry,
    [logger.info], whatever the event, the details, the user and the state
    of the disk, and nothing is appended to the audit file.  The wrapped
    [res.send] does the same for every reply that is due for a record, so
    that reply is not handed to the original [send]; only a reply that is
    not due for a record goes out. *)
Theorem audit_record_raises :
  forall disk clock eventType details userId rt req s b w,
  auditCareEvent disk clock eventType details userId w
  = (Throw (not_a_function "logger.info"), w)
  /\ wrappedSend disk clock rt req s b w
     = (if audited req s
        then Throw (not_a_function "logger.info") else Return (s, b), w).
Proof.
  intros. split; [apply auditCareEvent_eq|apply wrappedSend_eq].
Qed.

(* ================================================================== *)
(** ** Audit trail of the gate *)
(* ================================================================== *)







(* ================================================================== *)
(** * Further properties *)
(* ================================================================== *)

(** ** Redaction: what it guarantees and what it leaves *)

Lemma is_marker_eq : forall v, is_marker v = true <-> v = REDACTED.
Proof.
  intros v. unfold REDACTED. split.
  - destruct v; simpl; try discriminate. intros H.
    apply String.eqb_eq in H. now subst.
  - intros ->. reflexivity.
Qed.

Lemma settled_b_iff : forall o f, settled_b o f = true <-> settled_at o f.
Proof.
  intros o f. unfold settled_b, settled_at.
  rewrite orb_true_iff, is_marker_eq, negb_true_iff. reflexivity.
Qed.

Lemma primitive_clean : forall v,
  typeof_object v && negb (is_null v) = false -> clean v = true.
Proof. intros []; simpl; intros H; try reflexivity; discriminate. Qed.

Lemma walk_clean : forall recur o o',
  (forall v v', recur v = Some v' -> clean v' = true) ->
  walk recur o = Some o' ->
  forallb (fun kv => clean (snd kv)) o' = true.
Proof.
  intros recur o. induction o as [|[key v] o IH]; intros o' Hr H.
  - inversion H; subst. reflexivity.
  - rewrite walk_cons in H.
    destruct (visit recur v) as [v'|] eqn:Ev; try discriminate.
    destruct (walk recur o) as [rest'|] eqn:Er; try discriminate.
    inversion H; subst o'. simpl. rewrite (IH rest' Hr eq_refl), andb_true_r.
    unfold visit in Ev.
    destruct (typeof_object v && negb (is_null v)) eqn:Eo.
    + eauto.
    + inversion Ev; subst v'. now apply primitive_clean.
Qed.

Lemma redact_fuel_clean : forall n d v,
  redact_fuel n d = Some v -> clean v = true.
Proof.
  induction n as [|n IH]; intros d v H; [discriminate|].
  simpl in H.
  destruct (negb (truthy d) || negb (typeof_object d)) eqn:E.
  - inversion H; subst v. destruct d; simpl in E; try reflexivity; discriminate.
  - destruct (walk (redact_fuel n) (mark (spread d))) as [o'|] eqn:Ew; try discriminate.
    inversion H; subst v. cbn [clean]. apply andb_true_iff. split.
    + apply forallb_forall. intros f Hf. apply settled_b_iff.
      eapply walk_settled; eauto using mark_settled.
    + eapply walk_clean; eauto.
Qed.

(** X1.  After redaction no object of the payload, at any depth, has a
    truthy value other than the marker under a name of the denylist.
    (Falsy values under such a name, like 0 or the empty string, stay.) *)
Theorem redacted_is_clean : forall data,
  clean (redactSensitiveData data) = true.
Proof.
  intros data.
  apply (redact_fuel_clean (S (depth data)) data).
  apply redact_fuel_spec. apply Nat.lt_succ_diag_r.
Qed.

Lemma set_keeps_names : forall o k v,
  truthy (get o k) = true -> map fst (set o k v) = map fst o.
Proof.
  induction o as [|[k' v'] o IH]; intros k v H; simpl in *.
  - discriminate.
  - destruct (String.eqb k' k); simpl; auto. now rewrite IH.
Qed.

Lemma mark_keeps_names : forall o, map fst (mark o) = map fst o.
Proof.
  intros o. unfold mark. generalize sensitiveFields as fields.
  intros fields; revert o.
  induction fields as [|f fields IH]; intros o; simpl; auto.
  rewrite IH. unfold mark_field.
  destruct (truthy (get o f)) eqn:E; auto. now apply set_keeps_names.
Qed.

(** X2.  Redaction neither adds nor drops a property: the redacted value
    has the property names of the payload, in the same order (an array
    shows its indices). *)
Theorem redaction_keeps_names : forall data,
  map fst (spread (redactSensitiveData data)) = map fst (spread data).
Proof.
  intros data. rewrite redactSensitiveData_eq.
  destruct (negb (truthy data) || negb (typeof_object data)); auto.
  cbn [spread]. rewrite map_map. cbn [fst]. apply mark_keeps_names.
Qed.

Lemma get_absent : forall o f,
  forallb (fun kv => negb (String.eqb (fst kv) f)) o = true ->
  get o f = VUndefined.
Proof.
  induction o as [|[k v] o IH]; intros f H; simpl in *; auto.
  apply andb_true_iff in H as [Hk Ho]. apply negb_true_iff in Hk.
  rewrite Hk. auto.
Qed.

Lemma plain_no_sensitive_name : forall o f,
  plain (VObj o) = true -> In f sensitiveFields -> get o f = VUndefined.
Proof.
  intros o f Hp Hf. apply get_absent.
  cbn [plain] in Hp. rewrite forallb_forall in *. intros [k v] Hin.
  specialize (Hp _ Hin). apply andb_true_iff in Hp as [Hk _]. cbn [fst] in *.
  apply negb_true_iff. apply negb_true_iff in Hk.
  destruct (String.eqb k f) eqn:E; auto.
  apply String.eqb_eq in E; subst k.
  apply includes_In in Hf. congruence.
Qed.

Lemma walk_plain : forall recur n o,
  (forall v, plain v = true -> depth v < n -> recur v = Some v) ->
  forallb (fun kv => plain (snd kv)) o = true ->
  depth_fields o < n ->
  walk recur o = Some o.
Proof.
  intros recur n o Hr. induction o as [|[key v] o IH]; intros Hp Hd; auto.
  simpl in Hp. apply andb_true_iff in Hp as [Hv Ho].
  unfold depth_fields in *. simpl in Hd.
  rewrite walk_cons, IH by (auto; lia).
  assert (visit recur v = Some v) as ->; auto.
  unfold visit. destruct (typeof_object v && negb (is_null v)); auto.
  apply Hr; auto. lia.
Qed.

Lemma redact_fuel_plain : forall n v,
  plain v = true -> depth v < n -> redact_fuel n v = Some v.
Proof.
  induction n as [|n IH]; intros v Hp Hd; [lia|].
  destruct v as [| |b|z|s|fields|items];
    try reflexivity;
    try (cbn [redact_fuel typeof_object negb]; now rewrite orb_true_r);
    [|discriminate Hp].
  cbn [redact_fuel truthy typeof_object negb orb spread].
  assert (mark fields = fields) as ->.
  { apply mark_id. intros f Hf. right.
    now rewrite (plain_no_sensitive_name fields f Hp Hf). }
  rewrite (walk_plain (redact_fuel n) n fields); auto.
  - cbn [plain] in Hp. rewrite forallb_forall in *. intros kv Hin.
    specialize (Hp _ Hin). now apply andb_true_iff in Hp as [_ Hv].
  - simpl in Hd. unfold depth_fields. lia.
Qed.

(** X3.  The denylist is matched by exact property name only: a payload
    that has no array and no property with exactly one of the nine names,
    at any depth, comes back unchanged, whatever its values are.  So a
    value under [refreshToken], [accessToken], [pin] or [Password] is
    written to the audit log as it is. *)
Theorem redaction_matches_names_exactly : forall data,
  plain data = true -> redactSensitiveData data = data.
Proof.
  intros data Hp.
  pose proof (redact_fuel_spec (S (depth data)) data (Nat.lt_succ_diag_r _)) as H.
  rewrite (redact_fuel_plain _ _ Hp (Nat.lt_succ_diag_r _)) in H. congruence.
Qed.

Lemma redaction_matches_names_exactly_witness :
  plain (VObj [("refreshToken", VStr "eyJhbGciOi");
               ("user", VObj [("pin", VStr "1234"); ("Password", VStr "hunter2")])])
  = true
  /\ redactSensitiveData
       (VObj [("refreshToken", VStr "eyJhbGciOi");
              ("user", VObj [("pin", VStr "1234"); ("Password", VStr "hunter2")])])
     = VObj [("refreshToken", VStr "eyJhbGciOi");
             ("user", VObj [("pin", VStr "1234"); ("Password", VStr "hunter2")])].
Proof.
  split; [reflexivity|].
  apply (redaction_matches_names_exactly
           (VObj [("refreshToken", VStr "eyJhbGciOi");
                  ("user", VObj [("pin", VStr "1234"); ("Password", VStr "hunter2")])])).
  reflexivity.
Defined.

Lemma index_key_not_sensitive : forall i f,
  In f sensitiveFields -> String.eqb (index_key i) f = false.
Proof.
  intros i f Hf. unfold index_key.
  destruct (Nat.to_uint i); simpl in Hf;
    repeat (destruct Hf as [<-|Hf]; [reflexivity|]); destruct Hf.
Qed.

Lemma get_indexed_sensitive : forall items i f,
  In f sensitiveFields -> get (indexed i items) f = VUndefined.
Proof.
  induction items as [|x items IH]; intros i f Hf; simpl; auto.
  rewrite (index_key_not_sensitive i f Hf). auto.
Qed.

Lemma map_indexed : forall (g : value -> value) items i,
  map (fun kv => (fst kv, g (snd kv))) (indexed i items) = indexed i (map g items).
Proof.
  induction items as [|x items IH]; intros i; simpl; auto. now rewrite IH.
Qed.

(** X4.  An array does not survive redaction as an array: it comes back as
    an object keyed by the indices "0", "1", ..., with every element that is
    an object or array redacted in turn.  This holds for arrays nested in
    the payload as well, since they are redacted by the same call. *)
Theorem redaction_turns_arrays_into_objects : forall items,
  redactSensitiveData (VArr items) = VObj (indexed 0 (map redact_value items)).
Proof.
  intros items. rewrite redactSensitiveData_eq.
  cbn [truthy typeof_object negb orb spread].
  assert (mark (indexed 0 items) = indexed 0 items) as ->.
  { apply mark_id. intros f Hf. right.
    now rewrite (get_indexed_sensitive items 0 f Hf). }
  f_equal. apply (map_indexed redact_value).
Qed.

(** ** The audit logger: scope and the sibling recorders *)

Lemma prefix_app : forall p s rest,
  String.prefix p s = true -> String.prefix p (String.append s rest) = true.
Proof.
  induction p as [|a p IH]; intros s rest H.
  - destruct s; simpl; [destruct rest|]; reflexivity.
  - destruct s as [|b s]; simpl in *; [discriminate|].
    destruct (ascii_dec a b); [auto|discriminate].
Qed.

Lemma prefix_refl : forall p, String.prefix p p = true.
Proof.
  induction p as [|a p IH]; simpl; auto.
  destruct (ascii_dec a a); [auto|congruence].
Qed.

Lemma requiresAuditLogging_under : forall endpoint rest,
  In endpoint sensitiveEndpoints ->
  requiresAuditLogging (String.append endpoint rest) = true.
Proof.
  intros endpoint rest Hin. unfold requiresAuditLogging.
  apply existsb_exists. exists endpoint. split; auto.
  apply prefix_app, prefix_refl.
Qed.

(** X5.  Every reply on a URL that begins with one of the sensitive
    endpoints (sub-paths, query strings and longer names such as
    /api/staffing alike) is due for a record whatever its status, so the
    wrapped [res.send] throws for it at [logger.info], with any disk: no
    line is appended to the audit file and the reply is not handed to the
    original [send]. *)
Theorem sensitive_paths_are_not_answered :
  forall disk clock rt req s b w endpoint rest,
  In endpoint sensitiveEndpoints ->
  originalUrl req = String.append endpoint rest ->
  wrappedSend disk clock rt req s b w
  = (Throw (not_a_function "logger.info"), w).
Proof.
  intros disk clock rt req s b w endpoint rest Hin Hurl.
  rewrite wrappedSend_eq. unfold audited.
  rewrite Hurl, (requiresAuditLogging_under endpoint rest Hin). reflexivity.
Qed.

Lemma sensitive_paths_are_not_answered_witness :
  In "/api/staff" sensitiveEndpoints
  /\ wrappedSend None (at_ms 2000000) 5
       (request "GET" "/api/staffing/rota?week=3" None VUndefined)
       200 (VObj [("success", VBool true)]) world0
     = (Throw (plainError "TypeError" "logger.info is not a function"), world0).
Proof.
  assert (In "/api/staff" sensitiveEndpoints) as Hin.
  { unfold sensitiveEndpoints. cbn [In]. tauto. }
  split; [exact Hin|].
  exact (sensitive_paths_are_not_answered None (at_ms 2000000) 5
           (request "GET" "/api/staffing/rota?week=3" None VUndefined)
           200 (VObj [("success", VBool true)]) world0
           "/api/staff" "ing/rota?week=3" Hin eq_refl).
Defined.

(** X6.  The three sibling recorders raise on every call and append
    nothing.  [auditIncident] and [auditMedication] throw the [TypeError] of
    a property read when their details are [null] or [undefined], and the
    [TypeError] of the missing logger method for every other argument;
    [auditCarePlanChange] throws the latter for every argument. *)
Theorem audit_siblings_always_raise :
  forall disk clock details who planId w,
  auditIncident disk clock details who w
  = (Throw (if nullish details then read_of_nullish
            else not_a_function "logger.warn"), w)
  /\ auditMedication disk clock details who w
     = (Throw (if nullish details then read_of_nullish
               else not_a_function "logger.info"), w)
  /\ auditCarePlanChange disk clock planId details who w
     = (Throw (not_a_function "logger.info"), w).
Proof.
  intros disk clock details who planId w.
  unfold auditIncident, auditMedication, auditCarePlanChange.
  destruct (nullish details); repeat split; reflexivity.
Qed.

(** ** The error handler *)

(** X7.  [errorHandler] answers no error.  Its first statement is
    [logger.error], which throws, so for every error, request and
    environment the handler itself throws a [TypeError] before it looks at
    the error: no status is chosen, no reply is sent and nothing is
    written. *)
Theorem error_handler_always_throws : forall env clock err req w,
  errorHandler env clock err req w
  = (Throw (not_a_function "logger.error"), w)
  /\ (forall status reply w',
        errorHandler env clock err req w <> (Return (status, reply), w')).
Proof.
  intros env clock err req w.
  assert (errorHandler env clock err req w
          = (Throw (not_a_function "logger.error"), w)) as E by reflexivity.
  split; [exact E|]. intros status reply w'. rewrite E. discriminate.
Qed.

(** ** The auth middleware: access levels, permissions, optional auth *)

(** X10.  [requireAccessLevel] tests membership, not rank: an authenticated
    user passes exactly when their access level is among the listed ones,
    so an administrator does not pass a route that lists only "Senior", and
    an empty list lets nobody pass.  A user who does not pass is not
    answered 403: the middleware throws at [logger.warn] before it
    replies. *)
Theorem access_level_is_membership : forall required req w u,
  user req = Some u ->
  (In (accessLevel_name (accessLevel u)) (requiredLevels required) ->
   requireAccessLevel required req w = (Next req, w))
  /\ (~ In (accessLevel_name (accessLevel u)) (requiredLevels required) ->
      requireAccessLevel required req w
      = (Threw req (not_a_function "logger.warn"), w)).
Proof.
  intros required req w u Hu. unfold requireAccessLevel. rewrite Hu.
  cbv zeta.
  destruct (includes (requiredLevels required) (accessLevel_name (accessLevel u)))
    eqn:E; cbn [negb]; split; intros H.
  - reflexivity.
  - apply includes_In in E. contradiction.
  - apply includes_In in H. congruence.
  - reflexivity.
Qed.

Lemma access_level_is_membership_witness :
  user (attach_user (request "GET" "/api/reports" None VUndefined) admin) = Some admin
  /\ requireAccessLevel (OneLevel "Senior")
       (attach_user (request "GET" "/api/reports" None VUndefined) admin) world0
     = (Threw (attach_user (request "GET" "/api/reports" None VUndefined) admin)
          (not_a_function "logger.warn"), world0)
  /\ requireAccessLevel (Levels ["Senior"; "Admin"])
       (attach_user (request "GET" "/api/reports" None VUndefined) admin) world0
     = (Next (attach_user (request "GET" "/api/reports" None VUndefined) admin), world0).
Proof.
  assert (~ In (accessLevel_name (accessLevel admin)) (requiredLevels (OneLevel "Senior")))
    as Hout.
  { intros [H|[]]. discriminate H. }
  assert (In (accessLevel_name (accessLevel admin))
             (requiredLevels (Levels ["Senior"; "Admin"]))) as Hin.
  { right. left. reflexivity. }
  split; [reflexivity|]. split.
  - exact (proj2 (access_level_is_membership (OneLevel "Senior")
                    (attach_user (request "GET" "/api/reports" None VUndefined) admin)
                    world0 admin eq_refl) Hout).
  - exact (proj1 (access_level_is_membership (Levels ["Senior"; "Admin"])
                    (attach_user (request "GET" "/api/reports" None VUndefined) admin)
                    world0 admin eq_refl) Hin).
Defined.

(** X11.  [requirePermission] lets an authenticated user pass exactly when
    the table of [hasPermission] grants the permission to their access
    level: an administrator always, a carer for the four base capabilities,
    a senior for those and the three elevated ones.  A user without the
    permission is not answered 403: the middleware throws at [logger.warn]
    before it replies. *)
Theorem missing_permission_throws : forall permission req w u,
  user req = Some u ->
  requirePermission permission req w
  = if match accessLevel u with
       | Carer => includes base_capabilities permission
       | Senior => includes base_capabilities permission
                   || includes elevated_capabilities permission
       | Admin => true
       end
    then (Next req, w)
    else (Threw req (not_a_function "logger.warn"), w).
Proof.
  intros permission req w u Hu. unfold requirePermission. rewrite Hu.
  assert (hasPermission u permission
          = match accessLevel u with
            | Carer => includes base_capabilities permission
            | Senior => includes base_capabilities permission
                        || includes elevated_capabilities permission
            | Admin => true
            end) as ->.
  { unfold hasPermission. destruct (accessLevel u); simpl.
    - reflexivity.
    - repeat (destruct (String.eqb permission _); simpl; try reflexivity).
    - reflexivity. }
  destruct (match accessLevel u with
            | Carer => _ | Senior => _ | Admin => _ end); reflexivity.
Qed.

Lemma missing_permission_throws_witness :
  user (attach_user (request "POST" "/api/care-plans" None VUndefined) carer)
  = Some carer
  /\ requirePermission "create_care_plans"
       (attach_user (request "POST" "/api/care-plans" None VUndefined) carer) world0
     = (Threw (attach_user (request "POST" "/api/care-plans" None VUndefined) carer)
          (not_a_function "logger.warn"), world0).
Proof.
  split; [reflexivity|].
  exact (missing_permission_throws "create_care_plans"
           (attach_user (request "POST" "/api/care-plans" None VUndefined) carer)
           world0 carer eq_refl).
Defined.

(** X12.  [optionalAuth] never answers a request and never logs: whatever
    the header, the token, the database or the account, it calls [next()].
    It attaches a user only when that user is active; and since it reads
    the claim [userId] as well, an access token issued by [generateTokens]
    never attaches anyone. *)
Theorem optional_auth_never_blocks : forall env db clock req w,
  exists req',
    optionalAuth env db clock req w = (Next req', w)
    /\ (req' = req \/ exists u, req' = attach_user req u /\ isActive u = true)
    /\ (forall u t0 iso0,
          authorization req
          = Some (Bearer (accessToken (generateTokens env (mkClock t0 iso0) u))) ->
          req' = req).
Proof.
  intros env db clock req w. unfold optionalAuth.
  destruct (authorization req) as [[t|text]|] eqn:Eh;
    try (exists req; repeat split; auto; fail).
  destruct (wire_truthy t) eqn:Et; [|exists req; repeat split; auto].
  destruct (verify t (JWT_SECRET env) (now clock)) as [decoded|e] eqn:Ev;
    [|exists req; repeat split; auto].
  destruct (findById db (claim decoded "userId")) as [[u|]|e] eqn:Ef;
    try (exists req; repeat split; auto; fail).
  destruct (isActive u) eqn:Ea; [|exists req; repeat split; auto].
  exists (attach_user req u). split; [reflexivity|]. split; [eauto|].
  intros u' t0 iso0 H. inversion H; subst t. exfalso.
  unfold generateTokens, accessToken, sign, verify in Ev.
  rewrite String.eqb_refl in Ev. cbn [negb] in Ev.
  destruct (Z.leb _ _); [discriminate|].
  inversion Ev; subst decoded. unfold findById in Ef.
  destruct (online db); cbn in Ef; discriminate.
Qed.

(** ** The login counter and the account lock *)

(** X13.  The two methods that write the lock keep its paths in agreement:
    on a document where [lockUntil] is only present with [accountLocked]
    set, [incrementLoginAttempts] leaves that so at any time, and
    [resetLoginAttempts] establishes it from any document. *)
Theorem lock_paths_stay_in_agreement : forall s now,
  lock_paths_agree (doc s) ->
  lock_paths_agree (doc (incrementLoginAttempts s now))
  /\ lock_paths_agree (doc (resetLoginAttempts s)).
Proof.
  intros s now H. split; [|left; reflexivity].
  unfold incrementLoginAttempts, lock_paths_agree in *.
  destruct (lockUntil (doc s)) as [t|] eqn:El.
  - destruct (Z.ltb t now); [left; reflexivity|].
    destruct ((5 <=? loginAttempts s + 1)%Z && negb (isAccountLocked (doc s) now));
      [right; reflexivity|].
    cbn [doc]. rewrite El. exact H.
  - destruct ((5 <=? loginAttempts s + 1)%Z && negb (isAccountLocked (doc s) now));
      [right; reflexivity|].
    cbn [doc]. rewrite El. exact H.
Qed.

Lemma lock_paths_stay_in_agreement_witness :
  lock_paths_agree (doc (mkLogin carer 4))
  /\ lock_paths_agree (doc (incrementLoginAttempts (mkLogin carer 4) 1000000))
  /\ lockUntil (doc (incrementLoginAttempts (mkLogin carer 4) 1000000))
     = Some 8200000%Z.
Proof.
  assert (lock_paths_agree (doc (mkLogin carer 4))) as H by (left; reflexivity).
  split; [exact H|]. split; [|reflexivity].
  exact (proj1 (lock_paths_stay_in_agreement (mkLogin carer 4) 1000000 H)).
Defined.



(** X15.  A call of [incrementLoginAttempts] on a document whose lock is
    running only counts: the lock is neither extended nor renewed and the
    flag stays as it is. *)
Theorem running_lock_is_not_extended : forall s now,
  isAccountLocked (doc s) now = true ->
  incrementLoginAttempts s now = mkLogin (doc s) (loginAttempts s + 1).
Proof.
  intros s now H. unfold incrementLoginAttempts. rewrite H.
  cbn [negb]. rewrite andb_false_r.
  unfold isAccountLocked in H. apply andb_true_iff in H as [_ H].
  destruct (lockUntil (doc s)) as [t|]; [|discriminate].
  apply Z.ltb_lt in H. destruct (Z.ltb_spec t now); [lia|reflexivity].
Qed.

Lemma running_lock_is_not_extended_witness :
  isAccountLocked (set_lock carer true (Some 8200000%Z)) 5000000 = true
  /\ incrementLoginAttempts (mkLogin (set_lock carer true (Some 8200000%Z)) 5) 5000000
     = mkLogin (set_lock carer true (Some 8200000%Z)) 6.
Proof.
  split; [reflexivity|].
  exact (running_lock_is_not_extended
           (mkLogin (set_lock carer true (Some 8200000%Z)) 5) 5000000 eq_refl).
Defined.

(** ** The auth routes next to the gate *)

Lemma verify_issued_access : forall env u t0 iso0 t,
  (seconds t < seconds t0 + accessTtl env)%Z ->
  exists decoded,
    verify (accessToken (generateTokens env (mkClock t0 iso0) u)) (JWT_SECRET env) t
    = Return decoded
    /\ claim decoded "id" = VStr (_id u)
    /\ claim decoded "userId" = VUndefined.
Proof.
  intros env u t0 iso0 t H.
  destruct (accessToken_round_trip env u t0 iso0 t) as [Hin _].
  destruct (Hin H) as [decoded [Hv [Hid [Hu _]]]]. eauto.
Qed.

(** X16.  [GET /api/auth/verify-token] and the gate disagree about the
    tokens the server issues: inside the expiry window, for a stored and
    active principal, the route answers that the access token is valid (it
    reads the claim [id]) while [authenticateToken] answers the same request
    401 "User not found" (it reads the claim [userId]). *)
Theorem verify_token_accepts_what_gate_rejects :
  forall env db u t0 iso0 clock req w,
  online db = true ->
  lookup_staff db (_id u) = Some u ->
  isActive u = true ->
  authorization req
  = Some (Bearer (accessToken (generateTokens env (mkClock t0 iso0) u))) ->
  (seconds (now clock) < seconds t0 + accessTtl env)%Z ->
  verifyToken env db clock req = Return u
  /\ authenticateToken env db clock req w = (Respond req 401 R_not_found, w).
Proof.
  intros env db u t0 iso0 clock req w Hon Hl Ha Hh Ht.
  destruct (verify_issued_access env u t0 iso0 (now clock) Ht)
    as [decoded [Hv [Hid Hu]]].
  split.
  - unfold verifyToken, headerToken. rewrite Hh. cbn [wire_truthy negb].
    unfold generateTokens, accessToken, sign in *. cbn [wire_truthy negb].
    rewrite Hv, Hid. unfold findById. rewrite Hon. cbn [negb].
    now rewrite Hl, Ha.
  - unfold authenticateToken, extractToken. rewrite Hh.
    unfold generateTokens, accessToken, sign in *. cbn [wire_truthy].
    rewrite Hv, Hu. unfold findById. now rewrite Hon.
Qed.

Lemma verify_token_accepts_what_gate_rejects_witness :
  verifyToken env0 db0 (at_ms 2000000) issued_request = Return carer
  /\ authenticateToken env0 db0 (at_ms 2000000) issued_request world0
     = (Respond issued_request 401 R_not_found, world0).
Proof.
  apply (verify_token_accepts_what_gate_rejects env0 db0 carer 1000000
           "1970-01-01T00:33:20.000Z" (at_ms 2000000) issued_request world0);
    reflexivity.
Defined.

(** X17.  The refresh route takes any unexpired token the server signed that
    carries an [id] claim, not only refresh tokens: presented with the
    access token of a stored, active principal, or with the token of their
    password-reset request, it issues a fresh access and refresh pair. *)
Theorem refresh_accepts_access_and_reset_tokens :
  forall env db u t0 iso0 clock,
  online db = true ->
  lookup_staff db (_id u) = Some u ->
  isActive u = true ->
  ((seconds (now clock) < seconds t0 + accessTtl env)%Z ->
   refresh env db clock (Some (accessToken (generateTokens env (mkClock t0 iso0) u)))
   = Return (generateTokens env clock u))
  /\ ((seconds (now clock) < seconds t0 + 3600)%Z ->
      refresh env db clock (Some (resetTokenFor env (mkClock t0 iso0) u))
      = Return (generateTokens env clock u)).
Proof.
  intros env db u t0 iso0 clock Hon Hl Ha.
  assert (forall body ttl,
             get (filter (fun kv => negb (is_undefined (snd kv))) body) "id"
             = VStr (_id u) ->
             (seconds (now clock) < seconds t0 + ttl)%Z ->
             refresh env db clock (Some (sign body (JWT_SECRET env) ttl t0))
             = Return (generateTokens env clock u)) as H.
  { intros body ttl Hid Ht. unfold refresh.
    rewrite (verify_sign body (JWT_SECRET env) ttl t0 (now clock) Ht).
    cbn [sign wire_truthy negb]. unfold claim. cbn [payload]. rewrite Hid.
    unfold findById. rewrite Hon. cbn [negb]. now rewrite Hl, Ha. }
  split; intros Ht; apply H; auto.
Qed.

Lemma refresh_accepts_access_and_reset_tokens_witness :
  refresh env0 db0 (at_ms 2000000)
    (Some (accessToken (generateTokens env0 (at_ms 1000000) carer)))
  = Return (generateTokens env0 (at_ms 2000000) carer)
  /\ refresh env0 db0 (at_ms 2000000)
       (Some (resetTokenFor env0 (at_ms 1000000) carer))
     = Return (generateTokens env0 (at_ms 2000000) carer).
Proof.
  destruct (refresh_accepts_access_and_reset_tokens env0 db0 carer 1000000
              "1970-01-01T00:33:20.000Z" (at_ms 2000000) eq_refl eq_refl eq_refl)
    as [H1 H2].
  split; [apply H1|apply H2]; reflexivity.
Defined.

(** X18.  Every failure of the refresh route on a non-empty token looks the
    same: a malformed, wrongly signed or expired token, an unknown or
    inactive user and a failing database all end in the one
    [UnauthorizedError] "Invalid refresh token", so a database outage is
    reported to the client as 401. *)
Theorem refresh_failures_are_uniform : forall env db clock token e,
  wire_truthy token = true ->
  refresh env db clock (Some token) = Throw e ->
  e = UnauthorizedError "Invalid refresh token".
Proof.
  intros env db clock token e Ht H. unfold refresh in H. rewrite Ht in H.
  cbn [negb] in H.
  destruct (verify token (JWT_SECRET env) (now clock)) as [decoded|e0];
    [|now inversion H].
  destruct (findById db (claim decoded "id")) as [[u|]|e0]; try (now inversion H).
  destruct (isActive u); cbn [negb] in H; [discriminate|now inversion H].
Qed.

Lemma refresh_failures_are_uniform_witness :
  online (mkDb [carer] false) = false
  /\ refresh env0 (mkDb [carer] false) (at_ms 2000000)
       (Some (refreshToken (generateTokens env0 (at_ms 1000000) carer)))
     = Throw (UnauthorizedError "Invalid refresh token").
Proof.
  split; [reflexivity|].
  assert (exists e, refresh env0 (mkDb [carer] false) (at_ms 2000000)
                      (Some (refreshToken (generateTokens env0 (at_ms 1000000) carer)))
                    = Throw e) as [e He] by (eexists; reflexivity).
  rewrite He. f_equal.
  exact (refresh_failures_are_uniform env0 (mkDb [carer] false) (at_ms 2000000)
           (refreshToken (generateTokens env0 (at_ms 1000000) carer)) e eq_refl He).
Defined.

(** ** Editing a daily log *)

(** X19.  The daily-log schema has no [timestamp] path, so the age test of
    the update route compares [NaN] and refuses nobody: the two checks pass
    exactly when the user created the log or has the role "Admin" or
    "Senior", at any time.  The [role] enum of the staff schema holds
    neither of the two, so for a staff record the schema accepts exactly the
    creator passes. *)
Theorem daily_log_edit_has_no_window : forall createdBy u now,
  (editCheck createdBy None u now = Return tt
   <-> createdBy = _id u \/ In (role u) ["Admin"; "Senior"])
  /\ (In (role u) role_enum ->
      (editCheck createdBy None u now = Return tt <-> createdBy = _id u)).
Proof.
  intros createdBy u now.
  assert (editCheck createdBy None u now = Return tt <-> canEdit createdBy u = true)
    as Hc.
  { unfold editCheck. rewrite andb_false_r.
    destruct (canEdit createdBy u); cbn [negb]; split; auto; discriminate. }
  assert (canEdit createdBy u = true
          <-> createdBy = _id u \/ In (role u) ["Admin"; "Senior"]) as He.
  { unfold canEdit. rewrite orb_true_iff, String.eqb_eq, includes_In. tauto. }
  split; [tauto|].
  intros Hin. rewrite Hc, He. split; [|tauto].
  intros [H|H]; [exact H|]. exfalso.
  unfold role_enum in Hin. cbn [In] in Hin, H.
  destruct H as [H|[H|[]]]; rewrite <- H in Hin;
    repeat (destruct Hin as [Hin|Hin]; [discriminate Hin|]); contradiction.
Qed.

Lemma daily_log_edit_has_no_window_witness :
  In (role carer) role_enum
  /\ editCheck "u1" None carer 999999999999 = Return tt.
Proof.
  assert (In (role carer) role_enum) as Hc by (left; reflexivity).
  split; [exact Hc|].
  exact (proj2 (proj2 (daily_log_edit_has_no_window "u1" carer 999999999999) Hc)
           eq_refl).
Defined.

Example senior_cannot_edit_a_carers_log :
  accessLevel senior = Senior
  /\ editCheck "u1" None senior 2000000
     = Throw (ForbiddenError
                "You can only edit your own logs unless you are an admin or senior carer").
Proof. split; reflexivity. Qed.

(** ** What the audit entries hold *)

Lemma createAuditEntry_requestBody : forall req s rt clock,
  prop (createAuditEntry req s rt clock) "requestBody"
  = if negb (String.eqb (method req) "GET")
    then redactSensitiveData (body req) else VUndefined.
Proof. reflexivity. Qed.

(** X20.  The payloads the audit entries take from the request are
    redacted: the [requestBody] of every API_ACCESS entry (absent for GET),
    the [details] of every CARE_EVENT entry and the [changes] of every
    CARE_PLAN_MODIFICATION entry have no truthy value other than the marker
    under a name of the denylist, at any depth. *)
Theorem audit_entries_hold_clean_payloads :
  forall req s rt clock eventType details userId planId,
  clean (prop (createAuditEntry req s rt clock) "requestBody") = true
  /\ clean (prop (careAuditEntry clock eventType details userId) "details") = true
  /\ clean (prop (carePlanEntry clock planId details userId) "changes") = true.
Proof.
  intros req s rt clock eventType details userId planId.
  assert (forall v, clean (redactSensitiveData v) = true) as Hc.
  { intros v. apply (redact_fuel_clean (S (depth v)) v).
    apply redact_fuel_spec. apply Nat.lt_succ_diag_r. }
  split; [|split].
  - rewrite createAuditEntry_requestBody.
    destruct (negb (String.eqb (method req) "GET")); [|reflexivity].
    apply Hc.
  - apply Hc.
  - apply Hc.
Qed.

(** ** What the gate lets through *)

(** X21.  [authenticateToken] never calls [next()].  Every request ends in a
    401 reply of the gate or in a rejected promise: a request that passes
    every check reaches [logger.info], which throws, and the [catch] block
    throws again at [logger.error].  The gate writes nothing. *)
Theorem gate_never_passes : forall env db clock req w,
  (exists reply, authenticateToken env db clock req w = (Respond req 401 reply, w))
  \/ (exists req',
        authenticateToken env db clock req w
        = (Rejected req' (not_a_function "logger.error"), w)
        /\ (req' = req \/ exists u, req' = attach_user req u)).
Proof.
  intros env db clock req w. unfold authenticateToken.
  destruct (extractToken req) as [token|]; [|left; eauto].
  destruct (verify token (JWT_SECRET env) (now clock)) as [decoded|e].
  2:{ destruct (auth_catch_cases req e w) as [[reply H]|H]; rewrite H;
        [left|right]; eauto. }
  destruct (findById db (claim decoded "userId")) as [[u|]|e].
  3:{ destruct (auth_catch_cases req e w) as [[reply H]|H]; rewrite H;
        [left|right]; eauto. }
  2:{ left; eauto. }
  destruct (negb (isActive u)); [left; eauto|].
  destruct (isAccountLocked u (now clock)); [left; eauto|].
  cbv zeta.
  destruct (Z.ltb _ _); [left; eauto|].
  right. exists (attach_user req u).
  split; [|right; eauto].
  destruct (facility u); reflexivity.
Qed.

Example gate_rejects_a_sound_request :
  authenticateToken env0 db0 (at_ms 2000000)
    (request "GET" "/api/residents" (Some (Bearer (token_for "u2" 1000000))) VUndefined)
    world0
  = (Rejected
       (attach_user
          (request "GET" "/api/residents"
             (Some (Bearer (token_for "u2" 1000000))) VUndefined) senior)
       (plainError "TypeError" "logger.error is not a function"), world0).
Proof. reflexivity. Qed.

(** ** Counting failed logins *)

Lemma failures_below_five : forall u times,
  accountLocked u = false ->
  lockUntil u = None ->
  length times < 5 ->
  fold_left incrementLoginAttempts times (mkLogin u 0)
  = mkLogin u (Z.of_nat (length times)).
Proof.
  intros u times Hf Hl.
  induction times as [|t times IH] using rev_ind; intros Hn; [reflexivity|].
  rewrite length_app in *. cbn [length] in *.
  rewrite fold_left_app. cbn [fold_left]. rewrite IH by lia.
  unfold incrementLoginAttempts. cbn [doc loginAttempts]. rewrite Hl.
  destruct (Z.leb_spec 5 (Z.of_nat (length times) + 1)); [lia|].
  cbn [andb]. f_equal. lia.
Qed.

(** X22.  Counting from a record with no lock: fewer than five failed
    logins, at whatever times, leave the record as it is and only count; the
    fifth sets [accountLocked] and a [lockUntil] two hours after it. *)
Theorem five_failures_to_lock : forall u times t5,
  accountLocked u = false ->
  lockUntil u = None ->
  (length times < 5 ->
   fold_left incrementLoginAttempts times (mkLogin u 0)
   = mkLogin u (Z.of_nat (length times)))
  /\ (length times = 4 ->
      fold_left incrementLoginAttempts (times ++ [t5]) (mkLogin u 0)
      = mkLogin (set_lock u true (Some (t5 + TWO_HOURS)%Z)) 5).
Proof.
  intros u times t5 Hf Hl. split.
  - now apply failures_below_five.
  - intros Hn. rewrite fold_left_app. cbn [fold_left].
    rewrite failures_below_five by (auto; lia). rewrite Hn.
    unfold incrementLoginAttempts, isAccountLocked. cbn [doc loginAttempts].
    rewrite Hl, Hf. reflexivity.
Qed.

Lemma five_failures_to_lock_witness :
  fold_left incrementLoginAttempts [10%Z; 20%Z; 30%Z; 40%Z] (mkLogin carer 0)
  = mkLogin carer 4
  /\ fold_left incrementLoginAttempts ([10%Z; 20%Z; 30%Z; 40%Z] ++ [50%Z])
       (mkLogin carer 0)
     = mkLogin (set_lock carer true (Some 7200050%Z)) 5.
Proof.
  destruct (five_failures_to_lock carer [10%Z; 20%Z; 30%Z; 40%Z] 50%Z
              eq_refl eq_refl) as [H1 H2].
  split; [apply H1; cbn; lia|apply H2; reflexivity].
Defined.
